(** * MoopsyServer (src/models/server.ts): connection establishment and the
      connection registry, over a shallow embedding of the TypeScript source.

    The class keeps one mutable table, [connections], and four handlers:
    [handleHTTPEstablishRequest], [handleHTTPMessageRequest],
    [handleNewSocketIOConnection] and [handleNewConnection].  Each handler is
    embedded as a function from the server state (and its request or socket)
    to the state afterwards together with what the handler did to the outside
    world: the HTTP response it wrote, the frames it sent on the socket, the
    calls it made into a connection, and whether it returned or threw.

    [async]/[await] is read sequentially: one handler runs from start to end
    without another task interleaving.  The call into a connection is code
    outside this class; it is given the server and hands it back, so that
    whatever it logs or closes is kept apart from what the handler does. *)

From Stdlib Require Import ZArith String Ascii List Bool.
From stdpp Require Import base option list gmap strings pretty.

Local Open Scope string_scope.
Local Open Scope Z_scope.

(** ** JavaScript values the handlers inspect *)

Module JS.

(** A value of [req.headers[name]] other than [undefined]: Node types it
    [string | string[] | undefined]; [undefined] is [None]. *)
Inductive HeaderValue : Type :=
| HString (s : string)
| HArray (l : list string).

(** [!s] is true for the empty string, false for every other string. *)
Definition truthy_string (s : string) : bool :=
  match s with
  | EmptyString => false
  | String _ _ => true
  end.

(** Truthiness of [string | undefined]. *)
Definition truthy_opt_string (s : option string) : bool :=
  match s with
  | None => false
  | Some s => truthy_string s
  end.

(** Truthiness of [string | string[] | undefined]: an array is an object
    and therefore truthy, even when it is empty. *)
Definition truthy (v : option HeaderValue) : bool :=
  match v with
  | None => false
  | Some (HString s) => truthy_string s
  | Some (HArray _) => true
  end.

(** [typeof v === "string"]. *)
Definition typeof_string (v : option HeaderValue) : bool :=
  match v with
  | Some (HString _) => true
  | _ => false
  end.

(** The guard [if (!v || typeof v !== "string") { ...; return; }] and the
    narrowing to [string] that TypeScript performs after it: [None] when
    the guard fires, the string otherwise. *)
Definition guard_string (v : option HeaderValue) : option string :=
  if negb (truthy v) || negb (typeof_string v) then None
  else match v with
       | Some (HString s) => Some s
       | _ => None
       end.

(** [v.toString()]: a string is itself, an array is its elements joined
    with a comma. *)
Definition toString (v : HeaderValue) : string :=
  match v with
  | HString s => s
  | HArray l => String.concat "," l
  end.

(** The property names every object literal [{}] inherits from
    [Object.prototype]. *)
Definition Object_prototype_keys : list string :=
  [ "constructor"; "__defineGetter__"; "__defineSetter__"; "hasOwnProperty";
    "__lookupGetter__"; "__lookupSetter__"; "isPrototypeOf";
    "propertyIsEnumerable"; "toString"; "valueOf"; "__proto__";
    "toLocaleString" ].

Definition inherited (k : string) : bool :=
  existsb (String.eqb k) Object_prototype_keys.

(** An object literal used as a table: its own properties are a finite map,
    its prototype is [Object.prototype]. *)
Section Table.
Context {V : Type}.

(** [k in o]: own or inherited. *)
Definition has (k : string) (o : gmap string V) : bool :=
  bool_decide (is_Some (o !! k)) || inherited k.

(** What [o[k]] evaluates to. *)
Inductive Lookup : Type :=
  | Own (v : V)      (* an own property: a value stored by the program *)
  | Inherited        (* a function or object of Object.prototype: truthy *)
  | Undefined.

Definition get (k : string) (o : gmap string V) : Lookup :=
  match o !! k with
  | Some v => Own v
  | None => if inherited k then Inherited else Undefined
  end.
End Table.
Arguments Lookup : clear implicits.

(** Modelled from the spec: what a [throw] carries (lib/is-moopsy-error and
    the MoopsyError class are not among the sources).  A recognized
    protocol-level error carries a status code and a message; every other
    thrown value is an internal error with its own detail. *)
Inductive Thrown : Type :=
| MoopsyError (code : Z) (message : string)
| JsError (name : string) (message : string).

(** Modelled from the spec: [isMoopsyError(e)] recognizes the protocol-level
    errors. *)
Definition isMoopsyError (e : Thrown) : bool :=
  match e with
  | MoopsyError _ _ => true
  | JsError _ _ => false
  end.

(** How a call ends. *)
Inductive Outcome (A : Type) : Type :=
| Returned (a : A)
| Threw (e : Thrown).
Arguments Returned {A} a.
Arguments Threw {A} e.

Definition bind {A B : Type} (m : Outcome A) (k : A → Outcome B) : Outcome B :=
  match m with
  | Returned a => k a
  | Threw e => Threw e
  end.

(** *** [JSON.stringify] on strings and on one-level objects of strings *)

Definition dquote : ascii := "034"%char.

Definition hex_digit (n : N) : ascii :=
  match n with
  | 0 => "0" | 1 => "1" | 2 => "2" | 3 => "3" | 4 => "4" | 5 => "5"
  | 6 => "6" | 7 => "7" | 8 => "8" | 9 => "9" | 10 => "a" | 11 => "b"
  | 12 => "c" | 13 => "d" | 14 => "e" | _ => "f"
  end%N%char.

(** One character inside a JSON string literal. *)
Definition quote_char (c : ascii) : string :=
  let n := N_of_ascii c in
  if (n =? 34)%N then String "\" (String dquote "")
  else if (n =? 92)%N then "\\"
  else if (n =? 8)%N then "\b"
  else if (n =? 9)%N then "\t"
  else if (n =? 10)%N then "\n"
  else if (n =? 12)%N then "\f"
  else if (n =? 13)%N then "\r"
  else if (n <? 32)%N then
    "\u00" +:+ String (hex_digit (n / 16)) (String (hex_digit (n mod 16)) "")
  else String c "".

Fixpoint quote_chars (s : string) : string :=
  match s with
  | EmptyString => ""
  | String c t => quote_char c +:+ quote_chars t
  end.

Definition quote (s : string) : string :=
  String dquote (quote_chars s +:+ String dquote "").

Definition stringify_field (kv : string * string) : string :=
  quote (fst kv) +:+ ":" +:+ quote (snd kv).

(** [JSON.stringify(o)] for an object [o] whose properties are strings. *)
Definition JSON_stringify (o : list (string * string)) : string :=
  "{" +:+ String.concat "," (map stringify_field o) +:+ "}".

(** *** [s.toLowerCase().includes(t)], on ASCII *)

Definition lower_char (c : ascii) : ascii :=
  let n := N_of_ascii c in
  if ((65 <=? n) && (n <=? 90))%N then ascii_of_N (n + 32) else c.

Fixpoint toLowerCase (s : string) : string :=
  match s with
  | EmptyString => ""
  | String c t => String (lower_char c) (toLowerCase t)
  end.

Fixpoint includes (needle hay : string) : bool :=
  String.prefix needle hay ||
  match hay with
  | EmptyString => false
  | String _ t => includes needle t
  end.

End JS.

Import JS.


(** ** Data model *)

(** [HTTPPublicKey] (src/types): the identity hint of an HTTP connection. *)
Record HTTPPublicKey : Type := {
  key : string;
  type : string;
}.

(** A socket.io [Socket], as far as the server reads it. *)
Record Socket : Type := {
  handshake_headers_host : option string;          (* socket.handshake.headers.host *)
  handshake_headers : gmap string HeaderValue;     (* the other handshake headers *)
  handshake_address : string;                      (* socket.handshake.address *)
}.

(** What the server does to a socket. *)
Inductive SocketEvent : Type :=
| SocketWrite (message : string)     (* socket.write(message) *)
| SocketDisconnect.                  (* socket.disconnect() *)

(** A [MoopsyConnection] object.  [objectId] is the identity of the object
    (two objects may carry the same [id]; they never share an [objectId]). *)
Record MoopsyConnection : Type := {
  objectId : nat;
  id : string;
  rawConnection : option Socket;
  hostname : string;
  ip : string;
  publicKey : option HTTPPublicKey;
}.

(** An express [Request], as far as the handlers read it.  Node types
    [req.headers.host] as [string | undefined] and every other header as
    [string | string[] | undefined]. *)
Record Request : Type := {
  headers_host : option string;                  (* req.headers["host"] *)
  headers : gmap string HeaderValue;             (* req.headers[name], other names *)
  connection_remoteAddress : option string;      (* req.connection.remoteAddress *)
  rawBody : string;                              (* what parseRequestBody(req) resolves to *)
}.

(** What was written to [res]: the status and the body passed to [end]. *)
Record Response : Type := {
  statusCode : Z;
  responseBody : string;
}.

(** A callback given to [connection.onDisconnect].  The server registers one
    closure, [() => { delete this.connections[connection.id]; }]; it is
    represented by the id it captured. *)
Inductive DisconnectHook : Type :=
| DeleteConnection (connectionId : string).

(** A line on the process console. *)
Inductive ConsoleLine : Type :=
| ConsoleLog (args : list string)
| ConsoleError (tag message : string) (data : option string) (error : Thrown).

(** The mutable state of a [MoopsyServer]. *)
Record MoopsyServer : Type := {
  opts_verbose : bool;                             (* this.opts.verbose === true *)
  connections : gmap string MoopsyConnection;      (* this.connections, own properties *)
  constructed : nat;                               (* MoopsyConnection objects built so far *)
  disconnectHooks : list (nat * DisconnectHook);   (* onDisconnect callbacks, by object *)
  console : list ConsoleLine;                      (* console output, oldest first *)
}.

Definition set_connections (m : gmap string MoopsyConnection) (s : MoopsyServer) : MoopsyServer :=
  {| opts_verbose := opts_verbose s; connections := m; constructed := constructed s;
     disconnectHooks := disconnectHooks s; console := console s |}.

Definition set_constructed (n : nat) (s : MoopsyServer) : MoopsyServer :=
  {| opts_verbose := opts_verbose s; connections := connections s; constructed := n;
     disconnectHooks := disconnectHooks s; console := console s |}.

Definition set_disconnectHooks (h : list (nat * DisconnectHook)) (s : MoopsyServer) : MoopsyServer :=
  {| opts_verbose := opts_verbose s; connections := connections s; constructed := constructed s;
     disconnectHooks := h; console := console s |}.

Definition set_console (c : list ConsoleLine) (s : MoopsyServer) : MoopsyServer :=
  {| opts_verbose := opts_verbose s; connections := connections s; constructed := constructed s;
     disconnectHooks := disconnectHooks s; console := c |}.

(** [verbose(...args)]: logs only when [opts.verbose] is true. *)
Definition verbose (args : list string) (s : MoopsyServer) : MoopsyServer :=
  if opts_verbose s then set_console (console s ++ [ConsoleLog args]) s else s.

(** [reportError(message, error, data)]: logs whatever [opts.verbose] is. *)
Definition reportError (message : string) (error : Thrown) (data : option string)
    (s : MoopsyServer) : MoopsyServer :=
  set_console (console s ++ [ConsoleError "@moopsyjs/server" message data error]) s.

(** The body of the disconnect callback: [delete this.connections[k]].
    [delete] removes an own property and does nothing, without throwing,
    when there is none. *)
Definition run_hook (cb : DisconnectHook) (s : MoopsyServer) : MoopsyServer :=
  match cb with
  | DeleteConnection k => set_connections (delete k (connections s)) s
  end.

(** Modelled from the spec: [connection.onDisconnect(cb)] of MoopsyConnection
    (src/models/connection.ts is not among the sources) registers a close
    hook on that connection object. *)
Definition onDisconnect (c : MoopsyConnection) (cb : DisconnectHook) (s : MoopsyServer) : MoopsyServer :=
  set_disconnectHooks (disconnectHooks s ++ [(objectId c, cb)]) s.

(** The callbacks registered on one connection object, oldest first. *)
Definition hooks_of (c : MoopsyConnection) (s : MoopsyServer) : list DisconnectHook :=
  map snd (filter (λ oh, fst oh = objectId c) (disconnectHooks s)).

(** Modelled from the spec: when the transport of a connection signals
    disconnection, the close hooks registered on it run, oldest first. *)
Definition disconnect (c : MoopsyConnection) (s : MoopsyServer) : MoopsyServer :=
  fold_left (λ s cb, run_hook cb s) (hooks_of c s) s.

(** ** The handlers *)

(** What one run of an HTTP handler leaves behind. *)
Record HttpRun (Payload : Type) : Type := {
  http_server : MoopsyServer;                           (* the server afterwards *)
  http_response : option Response;                      (* [None]: nothing was written to [res] *)
  http_inbound : list (MoopsyConnection * Payload);     (* calls of handleIncomingHTTPRequest *)
  http_completion : Outcome unit;                       (* the promise resolved, or rejected with *)
}.
Arguments http_server {Payload} _.
Arguments http_response {Payload} _.
Arguments http_inbound {Payload} _.
Arguments http_completion {Payload} _.

(** What one run of the socket.io connection listener leaves behind. *)
Record SocketRun : Type := {
  socket_server : MoopsyServer;
  socket_events : list SocketEvent;                     (* in the order issued *)
  socket_completion : Outcome unit;
}.

(** The modules the class imports that are not among the sources, as an
    interface. *)
Class Imports : Type := {
  (** lib/generate-id is random: [generateId n] is the id it hands to the
      [n]-th MoopsyConnection built by this server. *)
  generateId : nat → string;
  (** lib/determine-ip-from-socket. *)
  determineIPFromSocket : Socket → string;
  (** The values exchanged with a connection are [any] in the source. *)
  Payload : Type;
  Data : Type;
  (** lib/safe-json-parse and [EJSON.stringify]; either may throw. *)
  safeJSONParse : string → Outcome Payload;
  EJSON_stringify : Data → Outcome string;
  (** [connection.handleIncomingHTTPRequest(payload)], awaited: the value
      the promise resolves to, or what it rejects with, and the server as
      the connection left it (it may log, or close connections). *)
  handleIncomingHTTPRequest :
    MoopsyConnection → Payload → MoopsyServer → Outcome Data * MoopsyServer;
}.

Section Handlers.
Context {imports : Imports}.

(** Modelled from the spec: [new MoopsyConnection(rawConnection, hostname,
    ip, server, publicKey)] (src/models/connection.ts is not among the
    sources) takes its id from the identity generator and keeps the
    transport, hostname, ip and public key it is given. *)
Definition new_MoopsyConnection (rawConnection : option Socket) (hostname ip : string)
    (publicKey : option HTTPPublicKey) (s : MoopsyServer) : MoopsyConnection * MoopsyServer :=
  ({| objectId := constructed s;
      id := generateId (constructed s);
      rawConnection := rawConnection;
      hostname := hostname;
      ip := ip;
      publicKey := publicKey |},
   set_constructed (S (constructed s)) s).

(** [handleNewConnection] (lines 205-221). *)
Definition handleNewConnection (rawConnection : option Socket) (hostname ip : string)
    (publicKey : option HTTPPublicKey) (s : MoopsyServer)
    : Outcome MoopsyConnection * MoopsyServer :=
  let '(connection, s) := new_MoopsyConnection rawConnection hostname ip publicKey s in
  if JS.has (id connection) (connections s) then
    (Threw (JsError "Error" ("Tried to add new connection with duplicate id " +:+ id connection)), s)
  else
    let s := set_connections (<[id connection := connection]> (connections s)) s in
    let s := onDisconnect connection (DeleteConnection (id connection)) s in
    (Returned connection, s).

(** [res.status(code).end(body); return;] *)
Definition respond (code : Z) (body : string) (s : MoopsyServer) : HttpRun Payload :=
  {| http_server := s;
     http_response := Some {| statusCode := code; responseBody := body |};
     http_inbound := [];
     http_completion := Returned tt |}.

(** [req.headers["x-forwarded-for"]?.toString() ?? req.connection.remoteAddress] *)
Definition determine_ip (req : Request) : option string :=
  match headers req !! "x-forwarded-for" with
  | Some v => Some (JS.toString v)
  | None => connection_remoteAddress req
  end.

(** The guard [if (!x) { ...; return; }] on a [string | undefined]. *)
Definition guard_truthy (x : option string) : option string :=
  match x with
  | Some s => if truthy_string s then Some s else None
  | None => None
  end.

(** [handleHTTPEstablishRequest] (lines 99-131). *)
Definition handleHTTPEstablishRequest (req : Request) (s : MoopsyServer) : HttpRun Payload :=
  let publicKey := headers req !! "x-seamless-publickey" in
  match guard_string publicKey with
  | None => respond 400 "Missing x-seamless-publickey" s
  | Some publicKey =>
    let hostname := headers_host req in
    let ip := determine_ip req in
    match guard_truthy hostname with
    | None => respond 400 "Unable to determine hostname" s
    | Some hostname =>
      match guard_truthy ip with
      | None => respond 400 "Unable to determine IP address" s
      | Some ip =>
        match handleNewConnection None hostname ip
                (Some {| key := publicKey; type := "ecdsa" |}) s with
        | (Returned connection, s) =>
            respond 200 (JSON_stringify [("connectionId", id connection)]) s
        | (Threw e, s) =>
            {| http_server := s; http_response := None; http_inbound := [];
               http_completion := Threw e |}
        end
      end
    end
  end.

(** The [try] block of [handleHTTPMessageRequest] (lines 160-166), for an own
    property of the table: the payload is parsed, handed to the connection,
    and the result serialized. *)
Definition message_try (connection : MoopsyConnection) (rawData : string) (s : MoopsyServer)
    : Outcome string * list (MoopsyConnection * Payload) * MoopsyServer :=
  match safeJSONParse rawData with
  | Threw e => (Threw e, [], s)
  | Returned payload =>
      let '(data, s) := handleIncomingHTTPRequest connection payload s in
      (JS.bind data EJSON_stringify, [(connection, payload)], s)
  end.

(** The same block when [this.connections[connectionId]] is a member of
    [Object.prototype]: it has no [handleIncomingHTTPRequest], so once the
    argument is evaluated the call throws a TypeError. *)
Definition message_try_inherited (rawData : string) : Outcome string :=
  JS.bind (safeJSONParse rawData) (λ _,
    Threw (JsError "TypeError" "connection.handleIncomingHTTPRequest is not a function")).

(** [e.code] and [e.message]; the handler reads [e.code] only of a
    MoopsyError. *)
Definition thrown_code (e : Thrown) : Z :=
  match e with
  | MoopsyError code _ => code
  | JsError _ _ => 0
  end.

Definition thrown_message (e : Thrown) : string :=
  match e with
  | MoopsyError _ message => message
  | JsError _ message => message
  end.

(** [res.writeHead(code)]: Node accepts the status codes 100 to 999 and
    throws a RangeError for any other, before anything is written. *)
Definition writeHead (code : Z) : Outcome Z :=
  if (100 <=? code) && (code <=? 999) then Returned code
  else Threw (JsError "RangeError" ("Invalid status code: " +:+ pretty code)).

(** The write of the result (line 166) and the [catch] block (lines
    168-175): the response written, or what [writeHead] threw. *)
Definition message_respond (r : Outcome string) : Outcome Response :=
  match r with
  | Returned responseData =>
      JS.bind (writeHead 200) (λ code,
        Returned {| statusCode := code; responseBody := responseData |})
  | Threw e =>
      if isMoopsyError e then
        JS.bind (writeHead (thrown_code e)) (λ code,
          Returned {| statusCode := code; responseBody := thrown_message e |})
      else
        JS.bind (writeHead 500) (λ code,
          Returned {| statusCode := code; responseBody := "Internal Server Error" |})
  end.

(** How the handler ends after the [try] and the [catch]: with the response
    written, or, when [writeHead] threw inside the [catch], with nothing
    written and the promise rejected. *)
Definition message_finish (r : Outcome string) (calls : list (MoopsyConnection * Payload))
    (s : MoopsyServer) : HttpRun Payload :=
  match message_respond r with
  | Returned response =>
      {| http_server := s; http_response := Some response;
         http_inbound := calls; http_completion := Returned tt |}
  | Threw e =>
      {| http_server := s; http_response := None;
         http_inbound := calls; http_completion := Threw e |}
  end.

(** [handleHTTPMessageRequest] (lines 142-176). *)
Definition handleHTTPMessageRequest (req : Request) (s : MoopsyServer) : HttpRun Payload :=
  let connectionId := headers req !! "x-seamless-connection-id" in
  match guard_string connectionId with
  | None => respond 400 "Missing connectionId" s
  | Some connectionId =>
    match JS.get connectionId (connections s) with
    | Undefined => respond 404 "Connection not found" s
    | Own connection =>
        let rawData := rawBody req in
        let '(r, calls, s) := message_try connection rawData s in
        message_finish r calls s
    | Inherited =>
        let rawData := rawBody req in
        message_finish (message_try_inherited rawData) [] s
    end
  end.

(** [handleNewSocketIOConnection] (lines 184-197). *)
Definition handleNewSocketIOConnection (socket : Socket) (s : MoopsyServer) : SocketRun :=
  match handshake_headers_host socket with
  | None =>
      {| socket_server := s;
         socket_events := [SocketWrite "error:missing-hostname"; SocketDisconnect];
         socket_completion := Returned tt |}
  | Some hostname =>
      let ip := determineIPFromSocket socket in
      match handleNewConnection (Some socket) hostname ip None s with
      | (Returned _, s) =>
          {| socket_server := s; socket_events := []; socket_completion := Returned tt |}
      | (Threw e, s) =>
          {| socket_server := s; socket_events := []; socket_completion := Threw e |}
      end
  end.

End Handlers.

(** ** Notions the claims are stated with *)

(** The three things an establish request must supply.  For a string,
    present means not empty: [!x] is true of the empty string. *)
Definition has_public_key (req : Request) (publicKey : string) : Prop :=
  headers req !! "x-seamless-publickey" = Some (HString publicKey) ∧ publicKey ≠ "".

Definition has_hostname (req : Request) (hostname : string) : Prop :=
  headers_host req = Some hostname ∧ hostname ≠ "".

Definition has_ip (req : Request) (ip : string) : Prop :=
  determine_ip req = Some ip ∧ ip ≠ "".

(** An establish request passes validation: a public key that is a string,
    a hostname and an ip, all present. *)
Definition passes_validation (req : Request) (publicKey hostname ip : string) : Prop :=
  has_public_key req publicKey ∧ has_hostname req hostname ∧ has_ip req ip.

(** The same request with header [name] not sent. *)
Definition without_header (name : string) (req : Request) : Request :=
  {| headers_host := headers_host req;
     headers := delete name (headers req);
     connection_remoteAddress := connection_remoteAddress req;
     rawBody := rawBody req |}.

(** The run [r] of the establish handler from state [s] answered 200 and
    registered [connection] under the id generated for it. *)
Definition establishes {imports : Imports} (s : MoopsyServer) (r : HttpRun Payload)
    (connection : MoopsyConnection) : Prop :=
  (∃ body, http_response r = Some {| statusCode := 200; responseBody := body |}) ∧
  connections (http_server r) !! generateId (constructed s) = Some connection.

(** The error [handleNewConnection] throws from state [s]. *)
Definition duplicate_id_error {imports : Imports} (s : MoopsyServer) : Thrown :=
  JsError "Error"
    ("Tried to add new connection with duplicate id " +:+ generateId (constructed s)).

(** A header is missing, or is not a single string. *)
Definition missing_or_not_string (v : option HeaderValue) : Prop :=
  v = None ∨ ∃ l, v = Some (HArray l).

(** The unclassified error [e] was logged with its detail: some console line
    written during the run carries [e]. *)
Definition logged (e : Thrown) (before after : MoopsyServer) : Prop :=
  ∃ tag message data,
    ConsoleError tag message data e ∈ drop (length (console before)) (console after).

(** ** A concrete server, for running the handlers *)

Module Example.

(** An identity generator whose first two draws collide. *)
Definition generate (n : nat) : string :=
  match n with
  | O => "q7Zp0aLmX2cVb9NeR4tY"
  | S O => "q7Zp0aLmX2cVb9NeR4tY"
  | S (S _) => "Jk3sD8fGh1WuQ6oTiE5r"
  end.

(** A connection that echoes its payload, rejects ["denied"] with a protocol
    error and fails on ["boom"] with an internal one. *)
Definition inbound (c : MoopsyConnection) (payload : string) (s : MoopsyServer)
    : Outcome string * MoopsyServer :=
  if String.eqb payload "denied" then (Threw (MoopsyError 403 "Forbidden"), s)
  else if String.eqb payload "boom" then
    (Threw (JsError "Error" "ECONNREFUSED db.internal:5432 user=moopsy"), s)
  else (Returned payload, s).

Definition imports : Imports :=
  {| generateId := generate;
     determineIPFromSocket := handshake_address;
     Payload := string;
     Data := string;
     safeJSONParse := Returned;
     EJSON_stringify := Returned;
     handleIncomingHTTPRequest := inbound |}.

(** A server that has accepted nothing yet. *)
Definition fresh : MoopsyServer :=
  {| opts_verbose := false; connections := ∅; constructed := 0;
     disconnectHooks := []; console := [] |}.

(** Scenario A of the spec: hostname example.com, ip 10.0.0.1, key pk_abc. *)
Definition establish : Request :=
  {| headers_host := Some "example.com";
     headers := {[ "x-seamless-publickey" := HString "pk_abc";
                   "x-forwarded-for" := HString "10.0.0.1" ]};
     connection_remoteAddress := Some "192.168.0.7";
     rawBody := "" |}.

(** The same request without the public-key header. *)
Definition establish_no_key : Request :=
  {| headers_host := Some "example.com";
     headers := {[ "x-forwarded-for" := HString "10.0.0.1" ]};
     connection_remoteAddress := Some "192.168.0.7";
     rawBody := "" |}.

(** A request with neither a hostname nor a public key. *)
Definition establish_no_host_no_key : Request :=
  {| headers_host := None;
     headers := {[ "x-forwarded-for" := HString "10.0.0.1" ]};
     connection_remoteAddress := Some "192.168.0.7";
     rawBody := "" |}.

(** A request whose public-key header arrived as an array. *)
Definition establish_key_array : Request :=
  {| headers_host := Some "example.com";
     headers := {[ "x-seamless-publickey" := HArray ["pk_abc"; "pk_def"];
                   "x-forwarded-for" := HString "10.0.0.1" ]};
     connection_remoteAddress := Some "192.168.0.7";
     rawBody := "" |}.

(** A request with no forwarded-for header and no peer address. *)
Definition establish_no_ip : Request :=
  {| headers_host := Some "example.com";
     headers := {[ "x-seamless-publickey" := HString "pk_abc" ]};
     connection_remoteAddress := None;
     rawBody := "" |}.

(** The connection the first establish request creates. *)
Definition connection : MoopsyConnection :=
  {| objectId := 0;
     id := "q7Zp0aLmX2cVb9NeR4tY";
     rawConnection := None;
     hostname := "example.com";
     ip := "10.0.0.1";
     publicKey := Some {| key := "pk_abc"; type := "ecdsa" |} |}.

(** The server after the establish request was served once. *)
Definition established : MoopsyServer :=
  http_server (handleHTTPEstablishRequest (imports := imports) establish fresh).

(** A message request naming connection [k] with body [b]. *)
Definition message (k b : string) : Request :=
  {| headers_host := Some "example.com";
     headers := {[ "x-seamless-connection-id" := HString k ]};
     connection_remoteAddress := Some "192.168.0.7";
     rawBody := b |}.

(** A message request without the connection-id header. *)
Definition message_no_id : Request :=
  {| headers_host := Some "example.com";
     headers := ∅;
     connection_remoteAddress := Some "192.168.0.7";
     rawBody := "ping" |}.

(** Sockets with and without a host in the handshake. *)
Definition socket : Socket :=
  {| handshake_headers_host := Some "example.com";
     handshake_headers := ∅;
     handshake_address := "10.0.0.2" |}.


End Example.

(** ** The server over time *)

(** The state the constructor leaves (lines 40 and 57-88): [connections] is
    the empty object literal, no connection has been built and nothing has
    been written to the console. *)
Definition new_MoopsyServer (verbose : bool) : MoopsyServer :=
  {| opts_verbose := verbose; connections := ∅; constructed := 0;
     disconnectHooks := []; console := [] |}.

(** What the constructor subscribes the handlers to (lines 79, 86 and 87),
    and the close of a connection's transport. *)
Inductive ServerEvent : Type :=
| HttpEstablish (req : Request)            (* POST /_seamlessjs/http/establish *)
| HttpMessage (req : Request)              (* POST /_seamlessjs/http/message *)
| SocketConnection (socket : Socket)       (* socket.io "connection" *)
| Disconnected (c : MoopsyConnection).     (* the transport of [c] closed *)

(** The server after one event was handled. *)
Definition step {imports : Imports} (ev : ServerEvent) (s : MoopsyServer) : MoopsyServer :=
  match ev with
  | HttpEstablish req => http_server (handleHTTPEstablishRequest req s)
  | HttpMessage req => http_server (handleHTTPMessageRequest req s)
  | SocketConnection socket => socket_server (handleNewSocketIOConnection socket s)
  | Disconnected c => disconnect c s
  end.

(** The server after a sequence of events, handled one after the other. *)
Definition run {imports : Imports} (evs : list ServerEvent) (s : MoopsyServer) : MoopsyServer :=
  fold_left (λ s ev, step ev s) evs s.

(** What the handlers keep true of the server: every entry of the table is
    filed under the id of its connection, under no name inherited from
    [Object.prototype]; every connection in it was built by this server,
    with the id the generator drew for it, and has its removal callback
    registered; and every registered callback is the removal of the id of
    the object it is registered on. *)
Record consistent {imports : Imports} (s : MoopsyServer) : Prop := {
  keyed : ∀ k c, connections s !! k = Some c → id c = k;
  own_not_inherited : ∀ k c, connections s !! k = Some c → inherited k = false;
  drawn : ∀ k c, connections s !! k = Some c →
            (objectId c < constructed s)%nat ∧ id c = generateId (objectId c);
  hooked : ∀ k c, connections s !! k = Some c →
            (objectId c, DeleteConnection (id c)) ∈ disconnectHooks s;
  hooks_drawn : ∀ o cb, (o, cb) ∈ disconnectHooks s →
            (o < constructed s)%nat ∧ cb = DeleteConnection (generateId o);
}.

(** The code of the connection, outside this class, keeps the server
    consistent. *)
Definition inbound_keeps_consistent {imports : Imports} : Prop :=
  ∀ c payload s, consistent s → consistent (handleIncomingHTTPRequest c payload s).2.

(** ** More requests and sockets for the concrete server *)

Module Edge.

(** The establish request with an empty public key. *)
Definition establish_empty_key : Request :=
  {| headers_host := Some "example.com";
     headers := {[ "x-seamless-publickey" := HString "";
                   "x-forwarded-for" := HString "10.0.0.1" ]};
     connection_remoteAddress := Some "192.168.0.7";
     rawBody := "" |}.

(** The establish request with an empty forwarded-for header; the peer
    address is known. *)
Definition establish_empty_forwarded : Request :=
  {| headers_host := Some "example.com";
     headers := {[ "x-seamless-publickey" := HString "pk_abc";
                   "x-forwarded-for" := HString "" ]};
     connection_remoteAddress := Some "192.168.0.7";
     rawBody := "" |}.

(** A socket whose handshake host is the empty string. *)
Definition socket_empty_host : Socket :=
  {| handshake_headers_host := Some "";
     handshake_headers := ∅;
     handshake_address := "10.0.0.2" |}.

(** The connection built for [Example.socket] by a fresh server. *)
Definition socket_connection : MoopsyConnection :=
  {| objectId := 0;
     id := "q7Zp0aLmX2cVb9NeR4tY";
     rawConnection := Some Example.socket;
     hostname := "example.com";
     ip := "10.0.0.2";
     publicKey := None |}.

(** The message of [Example.message] sent without a host header and from
    an unknown peer. *)
Definition bare_message (k b : string) : Request :=
  {| headers_host := None;
     headers := {[ "x-seamless-connection-id" := HString k ]};
     connection_remoteAddress := None;
     rawBody := b |}.

(** The establish request sent without a forwarded-for header; the peer
    address is known. *)
Definition establish_direct : Request :=
  {| headers_host := Some "example.com";
     headers := {[ "x-seamless-publickey" := HString "pk_abc" ]};
     connection_remoteAddress := Some "192.168.0.7";
     rawBody := "" |}.

(** A connection that answers ["quota"] with a protocol error whose code
    is no HTTP status, and otherwise behaves as [Example.inbound]. *)
Definition inbound (c : MoopsyConnection) (payload : string) (s : MoopsyServer)
    : Outcome string * MoopsyServer :=
  if String.eqb payload "quota" then (Threw (MoopsyError 1000 "Quota exceeded"), s)
  else Example.inbound c payload s.


(** A server that has served an establish request and two socket
    connections; the second draw of the generator collided, so the first
    socket was turned away. *)
Definition busy : MoopsyServer :=
  run (imports := Example.imports)
    [HttpEstablish Example.establish; SocketConnection Example.socket;
     SocketConnection Example.socket] (new_MoopsyServer false).

End Edge.

(** ** Properties *)

Section Properties.
Context {imports : Imports}.

(** *** The guards *)

Lemma truthy_string_true (x : string) : truthy_string x = true ↔ x ≠ "".
Proof. destruct x; simpl; split; congruence. Qed.

Lemma guard_string_Some (v : option HeaderValue) (x : string) :
  guard_string v = Some x ↔ v = Some (HString x) ∧ x ≠ "".
Proof.
  unfold guard_string.
  destruct v as [[x'|l]|]; simpl; try (split; [congruence | intros [? _]; congruence]).
  destruct x'; simpl; split.
  - congruence.
  - intros [[= <-] Hne]. congruence.
  - intros [= <-]. split; congruence.
  - intros [[= <-] _]. reflexivity.
Qed.

Lemma guard_string_None (v : option HeaderValue) :
  guard_string v = None ↔ ∀ x, v = Some (HString x) → x = "".
Proof.
  split.
  - intros Hg x ->. destruct x; [reflexivity | discriminate Hg].
  - intros Hv. destruct (guard_string v) as [x|] eqn:Hg; [|reflexivity].
    apply guard_string_Some in Hg as [-> Hne]. destruct Hne. by apply Hv.
Qed.

Lemma guard_truthy_Some (v : option string) (x : string) :
  guard_truthy v = Some x ↔ v = Some x ∧ x ≠ "".
Proof.
  destruct v as [[|a y]|]; simpl; split; try congruence.
  - intros [[= <-] Hne]. congruence.
  - intros [= <-]. split; congruence.
  - intros [? _]. congruence.
  - intros [? _]. congruence.
Qed.

Lemma guard_truthy_None (v : option string) :
  guard_truthy v = None ↔ ∀ x, v = Some x → x = "".
Proof.
  split.
  - intros Hg x ->. destruct x; [reflexivity | discriminate Hg].
  - intros Hv. destruct (guard_truthy v) as [x|] eqn:Hg; [|reflexivity].
    apply guard_truthy_Some in Hg as [-> Hne]. destruct Hne. by apply Hv.
Qed.

Lemma guard_string_missing (v : option HeaderValue) :
  missing_or_not_string v → guard_string v = None.
Proof. by intros [-> | [l ->]]. Qed.

(** *** The table *)

Lemma has_own {V : Type} (k : string) (m : gmap string V) :
  is_Some (m !! k) → JS.has k m = true.
Proof. intros Hk. unfold JS.has. by rewrite bool_decide_eq_true_2. Qed.

Lemma has_false {V : Type} (k : string) (m : gmap string V) :
  JS.has k m = false ↔ m !! k = None ∧ inherited k = false.
Proof.
  unfold JS.has. rewrite orb_false_iff, bool_decide_eq_false.
  by rewrite <- eq_None_not_Some.
Qed.

Lemma get_undefined {V : Type} (k : string) (m : gmap string V) :
  JS.get k m = Undefined ↔ JS.has k m = false.
Proof.
  rewrite has_false. unfold JS.get.
  destruct (m !! k), (inherited k); split; (congruence || intros []; congruence || done).
Qed.

(** *** handleNewConnection *)

Lemma handleNewConnection_duplicate rawConnection hostname ip publicKey s :
  JS.has (generateId (constructed s)) (connections s) = true →
  handleNewConnection rawConnection hostname ip publicKey s =
    (Threw (duplicate_id_error s), set_constructed (S (constructed s)) s).
Proof. intros Hin. unfold handleNewConnection. simpl. by rewrite Hin. Qed.

Lemma handleNewConnection_fresh rawConnection hostname ip publicKey s :
  JS.has (generateId (constructed s)) (connections s) = false →
  let connection := (new_MoopsyConnection rawConnection hostname ip publicKey s).1 in
  handleNewConnection rawConnection hostname ip publicKey s =
    (Returned connection,
     onDisconnect connection (DeleteConnection (id connection))
       (set_connections (<[id connection := connection]> (connections s))
          (set_constructed (S (constructed s)) s))).
Proof. intros Hin. unfold handleNewConnection. simpl. by rewrite Hin. Qed.

Lemma handleNewConnection_Returned rawConnection hostname ip publicKey s connection s' :
  handleNewConnection rawConnection hostname ip publicKey s = (Returned connection, s') →
  JS.has (generateId (constructed s)) (connections s) = false.
Proof.
  intros Hrun. destruct (JS.has _ _) eqn:Hin; [|reflexivity].
  rewrite handleNewConnection_duplicate in Hrun by done. discriminate.
Qed.

(** *** handleHTTPEstablishRequest *)

Lemma establish_validated req publicKey hostname ip s :
  passes_validation req publicKey hostname ip →
  handleHTTPEstablishRequest req s =
    match handleNewConnection None hostname ip
            (Some {| key := publicKey; type := "ecdsa" |}) s with
    | (Returned connection, s) =>
        respond 200 (JSON_stringify [("connectionId", id connection)]) s
    | (Threw e, s) =>
        {| http_server := s; http_response := None; http_inbound := [];
           http_completion := Threw e |}
    end.
Proof.
  intros (Hk & Hh & Hi). unfold handleHTTPEstablishRequest.
  apply guard_string_Some in Hk. apply guard_truthy_Some in Hh, Hi.
  by rewrite Hk, Hh, Hi.
Qed.

(** *** The disconnect callback *)

Lemma run_hook_lookup (k k' : string) (t : MoopsyServer) :
  connections (run_hook (DeleteConnection k) t) !! k' =
    if decide (k = k') then None else connections t !! k'.
Proof. simpl. apply lookup_delete. Qed.

Lemma run_hook_absent (k : string) (t : MoopsyServer) :
  connections t !! k = None → run_hook (DeleteConnection k) t = t.
Proof.
  intros Hk. destruct t as [v m n h c]. unfold run_hook, set_connections. simpl in *.
  f_equal. by apply delete_id.
Qed.

Lemma hooks_of_onDisconnect (c : MoopsyConnection) (cb : DisconnectHook) (t : MoopsyServer) :
  hooks_of c (onDisconnect c cb t) = (hooks_of c t ++ [cb])%list.
Proof.
  unfold hooks_of, onDisconnect. simpl.
  rewrite filter_app, map_app. f_equal.
  rewrite filter_cons_True by done. reflexivity.
Qed.

Lemma disconnect_last (c : MoopsyConnection) (cb : DisconnectHook) (t : MoopsyServer) :
  disconnect c (onDisconnect c cb t) =
    run_hook cb (fold_left (λ s cb, run_hook cb s) (hooks_of c t) (onDisconnect c cb t)).
Proof. unfold disconnect. rewrite hooks_of_onDisconnect. apply fold_left_app. Qed.

(** C1. When the id generated for a new connection is already a key of the
    connections table, [handleNewConnection] throws its duplicate-id error,
    and so does either transport's handler that reached it (the HTTP handler
    without writing a response): the table is left as it was, so the
    existing entry is not overwritten and the new connection not inserted,
    and no disconnect callback is registered. *)
Theorem duplicate_id_aborts_establishment (s : MoopsyServer) :
  is_Some (connections s !! generateId (constructed s)) →
  (∀ rawConnection hostname ip publicKey,
     let r := handleNewConnection rawConnection hostname ip publicKey s in
     r.1 = Threw (duplicate_id_error s) ∧
     connections r.2 = connections s ∧
     disconnectHooks r.2 = disconnectHooks s) ∧
  (∀ socket hostname,
     handshake_headers_host socket = Some hostname →
     let r := handleNewSocketIOConnection socket s in
     socket_completion r = Threw (duplicate_id_error s) ∧
     connections (socket_server r) = connections s ∧
     disconnectHooks (socket_server r) = disconnectHooks s) ∧
  (∀ req publicKey hostname ip,
     passes_validation req publicKey hostname ip →
     let r := handleHTTPEstablishRequest req s in
     http_completion r = Threw (duplicate_id_error s) ∧
     http_response r = None ∧
     connections (http_server r) = connections s ∧
     disconnectHooks (http_server r) = disconnectHooks s).
Proof.
  intros Hdup. apply has_own in Hdup. split; [|split].
  - intros raw h i pk. simpl. by rewrite handleNewConnection_duplicate.
  - intros socket h Hh. unfold handleNewSocketIOConnection. rewrite Hh.
    by rewrite handleNewConnection_duplicate.
  - intros req pk h i Hvalid. simpl. rewrite (establish_validated _ _ _ _ _ Hvalid).
    by rewrite handleNewConnection_duplicate.
Qed.

(** C2. An establish request whose public-key header is missing or is not
    a single string is answered 400 with a body that contains "publickey"
    when lower-cased; the server is left as it was: no MoopsyConnection is
    constructed and the connections table is unchanged. *)
Theorem establish_without_public_key_is_rejected (req : Request) (s : MoopsyServer) :
  missing_or_not_string (headers req !! "x-seamless-publickey") →
  let r := handleHTTPEstablishRequest req s in
  (∃ body,
     http_response r = Some {| statusCode := 400; responseBody := body |} ∧
     includes "publickey" (toLowerCase body) = true) ∧
  constructed (http_server r) = constructed s ∧
  connections (http_server r) = connections s ∧
  http_server r = s.
Proof.
  intros Hmissing. apply guard_string_missing in Hmissing.
  unfold handleHTTPEstablishRequest. rewrite Hmissing. simpl.
  split; [|done]. eexists. split; [reflexivity|]. reflexivity.
Qed.


(** C9. A connection returned by [handleNewConnection] is in the table
    under its own id, and one disconnect callback was registered on it, the
    removal of that id.  Running the callback removes that entry and leaves
    every other entry alone; running it when the entry is already gone
    changes nothing, and running it twice is the same as running it once.
    When the connection disconnects its entry is gone. *)
Theorem returned_connection_is_registered_until_disconnect
    rawConnection hostname ip publicKey (s s' : MoopsyServer) (connection : MoopsyConnection) :
  handleNewConnection rawConnection hostname ip publicKey s = (Returned connection, s') →
  let remove := run_hook (DeleteConnection (id connection)) in
  connections s' !! id connection = Some connection ∧
  disconnectHooks s' =
    (disconnectHooks s ++ [(objectId connection, DeleteConnection (id connection))])%list ∧
  (∀ t, connections (remove t) !! id connection = None ∧
        ∀ k, k ≠ id connection → connections (remove t) !! k = connections t !! k) ∧
  (∀ t, connections t !! id connection = None → remove t = t) ∧
  (∀ t, remove (remove t) = remove t) ∧
  connections (disconnect connection s') !! id connection = None.
Proof.
  intros Hrun. pose proof (handleNewConnection_Returned _ _ _ _ _ _ _ Hrun) as Hfresh.
  rewrite handleNewConnection_fresh in Hrun by done. simpl in Hrun.
  injection Hrun as <- <-. cbn zeta.
  split; [simpl; apply lookup_insert_eq|].
  split; [reflexivity|].
  assert (Hgone : ∀ t, connections (run_hook (DeleteConnection (generateId (constructed s))) t)
                         !! generateId (constructed s) = None).
  { intros t. rewrite run_hook_lookup. by rewrite decide_True. }
  split; [|split; [|split]].
  - intros t. split; [apply Hgone|].
    intros k Hk. rewrite run_hook_lookup. by rewrite decide_False.
  - intros t. apply run_hook_absent.
  - intros t. apply run_hook_absent, Hgone.
  - rewrite disconnect_last. apply Hgone.
Qed.

(** *** The establish handler, case by case *)

Lemma no_public_key_guard (req : Request) :
  (∀ k, ¬ has_public_key req k) → guard_string (headers req !! "x-seamless-publickey") = None.
Proof.
  intros Hno. apply guard_string_None. intros x Hx.
  destruct x as [|a x]; [reflexivity|]. destruct (Hno (String a x)). by split.
Qed.

Lemma no_hostname_guard (req : Request) :
  (∀ h, ¬ has_hostname req h) → guard_truthy (headers_host req) = None.
Proof.
  intros Hno. apply guard_truthy_None. intros x Hx.
  destruct x as [|a x]; [reflexivity|]. destruct (Hno (String a x)). by split.
Qed.

Lemma no_ip_guard (req : Request) :
  (∀ i, ¬ has_ip req i) → guard_truthy (determine_ip req) = None.
Proof.
  intros Hno. apply guard_truthy_None. intros x Hx.
  destruct x as [|a x]; [reflexivity|]. destruct (Hno (String a x)). by split.
Qed.

(** Every run of the establish handler is one of the three rejections, each
    leaving the server untouched, or the request passes validation. *)
Lemma establish_cases (req : Request) (s : MoopsyServer) :
  handleHTTPEstablishRequest req s = respond 400 "Missing x-seamless-publickey" s ∨
  handleHTTPEstablishRequest req s = respond 400 "Unable to determine hostname" s ∨
  handleHTTPEstablishRequest req s = respond 400 "Unable to determine IP address" s ∨
  ∃ k h i, passes_validation req k h i.
Proof.
  unfold handleHTTPEstablishRequest.
  destruct (guard_string _) as [k|] eqn:Hk; [|by left].
  destruct (guard_truthy (headers_host req)) as [h|] eqn:Hh; [|by right; left].
  destruct (guard_truthy (determine_ip req)) as [i|] eqn:Hi; [|by right; right; left].
  right; right; right. exists k, h, i.
  apply guard_string_Some in Hk. apply guard_truthy_Some in Hh, Hi. done.
Qed.

Lemma establishes_inv (req : Request) (s : MoopsyServer) (connection : MoopsyConnection) :
  establishes s (handleHTTPEstablishRequest req s) connection →
  ∃ k h i,
    passes_validation req k h i ∧
    JS.has (generateId (constructed s)) (connections s) = false ∧
    connection =
      (new_MoopsyConnection None h i (Some {| key := k; type := "ecdsa" |}) s).1.
Proof.
  intros [[body Hbody] Hreg].
  destruct (establish_cases req s) as [Hc|[Hc|[Hc|(k & h & i & Hvalid)]]];
    try (rewrite Hc in Hbody; discriminate Hbody).
  exists k, h, i. rewrite (establish_validated _ _ _ _ _ Hvalid) in Hbody, Hreg.
  destruct (JS.has (generateId (constructed s)) (connections s)) eqn:Hin.
  - rewrite handleNewConnection_duplicate in Hbody by done. discriminate Hbody.
  - rewrite handleNewConnection_fresh in Hreg by done. simpl in Hreg.
    rewrite lookup_insert_eq in Hreg. by injection Hreg as <-.
Qed.

(** C3, as the code has it. An establish request that passes validation,
    when the id generated for its connection is not yet a property name of
    the connections table, is answered 200 with the JSON text of the object
    whose one property, connectionId, is the id of the connection built for
    it; that connection carries the request's hostname, ip and public key,
    and is in the table under that id. *)
Theorem establish_success (req : Request) (pk host addr : string) (s : MoopsyServer) :
  passes_validation req pk host addr →
  JS.has (generateId (constructed s)) (connections s) = false →
  ∃ connection,
    id connection = generateId (constructed s) ∧
    rawConnection connection = None ∧
    hostname connection = host ∧
    ip connection = addr ∧
    publicKey connection = Some {| key := pk; type := "ecdsa" |} ∧
    http_response (handleHTTPEstablishRequest req s) =
      Some {| statusCode := 200;
              responseBody := JSON_stringify [("connectionId", id connection)] |} ∧
    http_completion (handleHTTPEstablishRequest req s) = Returned tt ∧
    connections (http_server (handleHTTPEstablishRequest req s)) !! id connection =
      Some connection.
Proof.
  intros Hvalid Hfresh. rewrite (establish_validated _ _ _ _ _ Hvalid).
  rewrite handleNewConnection_fresh by done.
  exists (new_MoopsyConnection None host addr (Some {| key := pk; type := "ecdsa" |}) s).1.
  simpl. repeat (split; [reflexivity|]). apply lookup_insert_eq.
Qed.

(** C6, as the code has it. The establish handler checks the public-key
    header first, the hostname second and the ip last: without a usable
    public key the answer is the missing-public-key 400 whatever else is
    missing; with one but no hostname it is the missing-hostname 400; with
    both but no ip it is the missing-ip 400. *)
Theorem establish_validation_order (req : Request) (s : MoopsyServer) :
  ((∀ k, ¬ has_public_key req k) →
     http_response (handleHTTPEstablishRequest req s) =
       Some {| statusCode := 400; responseBody := "Missing x-seamless-publickey" |}) ∧
  (∀ k, has_public_key req k → (∀ h, ¬ has_hostname req h) →
     http_response (handleHTTPEstablishRequest req s) =
       Some {| statusCode := 400; responseBody := "Unable to determine hostname" |}) ∧
  (∀ k h, has_public_key req k → has_hostname req h → (∀ i, ¬ has_ip req i) →
     http_response (handleHTTPEstablishRequest req s) =
       Some {| statusCode := 400; responseBody := "Unable to determine IP address" |}).
Proof.
  unfold handleHTTPEstablishRequest. split; [|split].
  - intros Hk. by rewrite no_public_key_guard.
  - intros k Hk Hh. apply guard_string_Some in Hk. rewrite Hk.
    by rewrite no_hostname_guard.
  - intros k h Hk Hh Hi. apply guard_string_Some in Hk. apply guard_truthy_Some in Hh.
    rewrite Hk, Hh. by rewrite no_ip_guard.
Qed.

(** C7. The ip of the connection an establish request creates is the
    forwarded-for header (as a string) when the request has that header, and
    the peer address of the transport when it has not; when neither yields
    a value (in particular when both are missing) the answer is a 400 and
    the server is left as it was, with no connection constructed.  Both
    sources do yield connections: a request with a public key and a
    hostname, whose generated id is free, is answered 200 and registers a
    connection whose ip is the non-empty forwarded-for header when it has
    one, and the non-empty peer address when it has no such header. *)
Theorem establish_ip_source (req : Request) (s : MoopsyServer) :
  (∀ v connection,
     headers req !! "x-forwarded-for" = Some v →
     establishes s (handleHTTPEstablishRequest req s) connection →
     ip connection = JS.toString v) ∧
  (∀ connection,
     headers req !! "x-forwarded-for" = None →
     establishes s (handleHTTPEstablishRequest req s) connection →
     connection_remoteAddress req = Some (ip connection)) ∧
  ((∀ i, ¬ has_ip req i) →
     (∃ body, http_response (handleHTTPEstablishRequest req s) =
                Some {| statusCode := 400; responseBody := body |}) ∧
     http_server (handleHTTPEstablishRequest req s) = s) ∧
  (headers req !! "x-forwarded-for" = None → connection_remoteAddress req = None →
     (∃ body, http_response (handleHTTPEstablishRequest req s) =
                Some {| statusCode := 400; responseBody := body |}) ∧
     http_server (handleHTTPEstablishRequest req s) = s) ∧
  (∀ pk host v,
     has_public_key req pk → has_hostname req host →
     headers req !! "x-forwarded-for" = Some v → JS.toString v ≠ "" →
     JS.has (generateId (constructed s)) (connections s) = false →
     ∃ connection,
       establishes s (handleHTTPEstablishRequest req s) connection ∧
       ip connection = JS.toString v) ∧
  (∀ pk host addr,
     has_public_key req pk → has_hostname req host →
     headers req !! "x-forwarded-for" = None →
     connection_remoteAddress req = Some addr → addr ≠ "" →
     JS.has (generateId (constructed s)) (connections s) = false →
     ∃ connection,
       establishes s (handleHTTPEstablishRequest req s) connection ∧
       ip connection = addr).
Proof.
  assert (Hnone : (∀ i, ¬ has_ip req i) →
     (∃ body, http_response (handleHTTPEstablishRequest req s) =
                Some {| statusCode := 400; responseBody := body |}) ∧
     http_server (handleHTTPEstablishRequest req s) = s).
  { intros Hno.
    destruct (establish_cases req s) as [Hc|[Hc|[Hc|(k & h & i & _ & _ & Hi)]]];
      try (rewrite Hc; simpl; eauto; fail).
    by destruct (Hno i). }
  assert (Hmade : ∀ pk host i,
     passes_validation req pk host i →
     JS.has (generateId (constructed s)) (connections s) = false →
     ∃ connection,
       establishes s (handleHTTPEstablishRequest req s) connection ∧ ip connection = i).
  { intros pk host i Hvalid Hfresh.
    exists (new_MoopsyConnection None host i (Some {| key := pk; type := "ecdsa" |}) s).1.
    unfold establishes. rewrite (establish_validated _ _ _ _ _ Hvalid).
    rewrite handleNewConnection_fresh by done. simpl.
    split; [|reflexivity]. split; [by eexists | apply lookup_insert_eq]. }
  split; [|split; [|split; [|split; [|split]]]].
  - intros v c Hv Hc. apply establishes_inv in Hc as (k & h & i & (_ & _ & Hi & _) & _ & ->).
    simpl. unfold determine_ip in Hi. rewrite Hv in Hi. congruence.
  - intros c Hv Hc. apply establishes_inv in Hc as (k & h & i & (_ & _ & Hi & _) & _ & ->).
    simpl. unfold determine_ip in Hi. by rewrite Hv in Hi.
  - exact Hnone.
  - intros Hv Ha. apply Hnone. intros i [Hi _]. unfold determine_ip in Hi.
    rewrite Hv, Ha in Hi. discriminate.
  - intros pk host v Hpk Hhost Hv Hne Hfresh. apply (Hmade pk host); [|done].
    split; [done|]. split; [done|]. split; [|done].
    unfold determine_ip. by rewrite Hv.
  - intros pk host addr Hpk Hhost Hv Haddr Hne Hfresh. apply (Hmade pk host); [|done].
    split; [done|]. split; [done|]. split; [|done].
    unfold determine_ip. by rewrite Hv.
Qed.

(** *** handleHTTPMessageRequest *)

(** A missing, empty or non-string connection id is answered 400. *)
Lemma message_without_id (req : Request) (s : MoopsyServer) :
  guard_string (headers req !! "x-seamless-connection-id") = None →
  handleHTTPMessageRequest req s = respond 400 "Missing connectionId" s.
Proof. intros Hg. unfold handleHTTPMessageRequest. by rewrite Hg. Qed.

(** An id that is no property name of the table, own or inherited, is
    answered 404. *)
Lemma message_unknown_id (req : Request) (s : MoopsyServer) (k : string) :
  headers req !! "x-seamless-connection-id" = Some (HString k) → k ≠ "" →
  JS.has k (connections s) = false →
  handleHTTPMessageRequest req s = respond 404 "Connection not found" s.
Proof.
  intros Hk Hne Hin. unfold handleHTTPMessageRequest.
  rewrite (proj2 (guard_string_Some _ k)) by done.
  apply get_undefined in Hin. by rewrite Hin.
Qed.

(** [writeHead] on the codes it accepts and on the others. *)
Lemma writeHead_valid (code : Z) : 100 ≤ code ≤ 999 → writeHead code = Returned code.
Proof.
  intros [Hlo Hhi]. unfold writeHead.
  by rewrite (proj2 (Z.leb_le _ _) Hlo), (proj2 (Z.leb_le _ _) Hhi).
Qed.

Lemma writeHead_invalid (code : Z) :
  ¬ 100 ≤ code ≤ 999 →
  writeHead code = Threw (JsError "RangeError" ("Invalid status code: " +:+ pretty code)).
Proof.
  intros Hout. unfold writeHead.
  destruct (Z.leb_spec 100 code), (Z.leb_spec code 999); simpl; try done. lia.
Qed.

Lemma message_finish_server (r : Outcome string) calls (s : MoopsyServer) :
  http_server (message_finish r calls s) = s.
Proof. unfold message_finish. by destruct (message_respond r). Qed.

Lemma message_finish_inbound (r : Outcome string) calls (s : MoopsyServer) :
  http_inbound (message_finish r calls s) = calls.
Proof. unfold message_finish. by destruct (message_respond r). Qed.

Lemma message_finish_result (text : string) calls (s : MoopsyServer) :
  message_finish (Returned text) calls s =
    {| http_server := s;
       http_response := Some {| statusCode := 200; responseBody := text |};
       http_inbound := calls; http_completion := Returned tt |}.
Proof. reflexivity. Qed.

Lemma message_finish_moopsy (code : Z) (message : string) calls (s : MoopsyServer) :
  100 ≤ code ≤ 999 →
  message_finish (Threw (MoopsyError code message)) calls s =
    {| http_server := s;
       http_response := Some {| statusCode := code; responseBody := message |};
       http_inbound := calls; http_completion := Returned tt |}.
Proof. intros Hcode. unfold message_finish. simpl. by rewrite writeHead_valid. Qed.

Lemma message_finish_invalid (code : Z) (message : string) calls (s : MoopsyServer) :
  ¬ 100 ≤ code ≤ 999 →
  message_finish (Threw (MoopsyError code message)) calls s =
    {| http_server := s; http_response := None; http_inbound := calls;
       http_completion :=
         Threw (JsError "RangeError" ("Invalid status code: " +:+ pretty code)) |}.
Proof. intros Hcode. unfold message_finish. simpl. by rewrite writeHead_invalid. Qed.

Lemma message_finish_other (e : Thrown) calls (s : MoopsyServer) :
  isMoopsyError e = false →
  message_finish (Threw e) calls s =
    {| http_server := s;
       http_response := Some {| statusCode := 500; responseBody := "Internal Server Error" |};
       http_inbound := calls; http_completion := Returned tt |}.
Proof. intros He. unfold message_finish. simpl. by rewrite He. Qed.

(** An id that names a member of [Object.prototype] passes the 404 guard:
    once the body is parsed the call on it throws, and the answer is the
    generic 500. *)
Lemma message_inherited_id (req : Request) (s : MoopsyServer) (k : string) (payload : Payload) :
  headers req !! "x-seamless-connection-id" = Some (HString k) →
  connections s !! k = None → inherited k = true →
  safeJSONParse (rawBody req) = Returned payload →
  http_response (handleHTTPMessageRequest req s) =
    Some {| statusCode := 500; responseBody := "Internal Server Error" |} ∧
  http_inbound (handleHTTPMessageRequest req s) = [] ∧
  http_server (handleHTTPMessageRequest req s) = s.
Proof.
  intros Hk Hown Hinh Hparse. unfold handleHTTPMessageRequest.
  assert (k ≠ "") as Hne by (intros ->; discriminate Hinh).
  rewrite (proj2 (guard_string_Some _ k)) by done.
  unfold JS.get. rewrite Hown, Hinh. unfold message_try_inherited.
  by rewrite Hparse.
Qed.

(** The handler itself never changes the server: a request that reaches no
    connection leaves it as it was. *)
Lemma message_server_unchanged (req : Request) (s : MoopsyServer) :
  http_inbound (handleHTTPMessageRequest req s) = [] →
  http_server (handleHTTPMessageRequest req s) = s.
Proof.
  unfold handleHTTPMessageRequest.
  destruct (guard_string _); [|reflexivity].
  destruct (JS.get _ _) as [c| |]; try reflexivity; [|by rewrite message_finish_server].
  unfold message_try. destruct (safeJSONParse _); [|by rewrite message_finish_server].
  destruct (handleIncomingHTTPRequest _ _ _). by rewrite message_finish_inbound.
Qed.

(** When the handler called into a connection, the payload is the parsed
    body, the handler ends as what the call produced makes it end, and the
    server is as the call left it. *)
Lemma message_inbound_inv (req : Request) (s : MoopsyServer)
    (connection : MoopsyConnection) (payload : Payload) :
  http_inbound (handleHTTPMessageRequest req s) = [(connection, payload)] →
  safeJSONParse (rawBody req) = Returned payload ∧
  handleHTTPMessageRequest req s =
    message_finish
      (JS.bind (handleIncomingHTTPRequest connection payload s).1 EJSON_stringify)
      [(connection, payload)]
      (handleIncomingHTTPRequest connection payload s).2.
Proof.
  unfold handleHTTPMessageRequest.
  destruct (guard_string _); [|discriminate].
  destruct (JS.get _ _) as [c| |]; try discriminate;
    [|by rewrite message_finish_inbound].
  unfold message_try. destruct (safeJSONParse _) as [p|];
    [|by rewrite message_finish_inbound].
  destruct (handleIncomingHTTPRequest c p s) as [data s1] eqn:Hcall.
  rewrite message_finish_inbound. intros [= -> ->]. by rewrite Hcall.
Qed.

(** C5, as the code has it. When the inbound handler of the connection a
    message request was handed to throws: a MoopsyError whose code is a
    status code [writeHead] accepts (100 to 999) is answered with exactly
    its code and its message; any thrown value that is no MoopsyError is
    answered 500 with the fixed text "Internal Server Error", which does
    not depend on what was thrown.  The handler writes nothing to the
    console: the server, and so its console, is as the connection left
    it. *)
Theorem inbound_throw_is_answered (req : Request) (s s' : MoopsyServer)
    (connection : MoopsyConnection) (payload : Payload) (e : Thrown) :
  http_inbound (handleHTTPMessageRequest req s) = [(connection, payload)] →
  handleIncomingHTTPRequest connection payload s = (Threw e, s') →
  (∀ code message, e = MoopsyError code message → 100 ≤ code ≤ 999 →
     http_response (handleHTTPMessageRequest req s) =
       Some {| statusCode := code; responseBody := message |}) ∧
  (isMoopsyError e = false →
     http_response (handleHTTPMessageRequest req s) =
       Some {| statusCode := 500; responseBody := "Internal Server Error" |}) ∧
  http_server (handleHTTPMessageRequest req s) = s' ∧
  console (http_server (handleHTTPMessageRequest req s)) = console s'.
Proof.
  intros Hcall Hthrow. apply message_inbound_inv in Hcall as (_ & ->).
  rewrite Hthrow, message_finish_server. simpl. split; [|split; [|done]].
  - intros code message -> Hcode. by rewrite message_finish_moopsy.
  - intros He. by rewrite message_finish_other.
Qed.

(** C10. A public-key header, or a connection-id header, that is an array
    is answered exactly as the same request without that header, with the
    400 of the missing header; a request that is not answered with that 400
    had a string in the header. *)
Theorem non_string_header_is_rejected_as_absent :
  (∀ req s l,
     headers req !! "x-seamless-publickey" = Some (HArray l) →
     handleHTTPEstablishRequest req s =
       handleHTTPEstablishRequest (without_header "x-seamless-publickey" req) s ∧
     http_response (handleHTTPEstablishRequest req s) =
       Some {| statusCode := 400; responseBody := "Missing x-seamless-publickey" |}) ∧
  (∀ req s l,
     headers req !! "x-seamless-connection-id" = Some (HArray l) →
     handleHTTPMessageRequest req s =
       handleHTTPMessageRequest (without_header "x-seamless-connection-id" req) s ∧
     http_response (handleHTTPMessageRequest req s) =
       Some {| statusCode := 400; responseBody := "Missing connectionId" |}) ∧
  (∀ req s,
     http_response (handleHTTPEstablishRequest req s) ≠
       Some {| statusCode := 400; responseBody := "Missing x-seamless-publickey" |} →
     ∃ k, headers req !! "x-seamless-publickey" = Some (HString k)) ∧
  (∀ req s,
     http_response (handleHTTPMessageRequest req s) ≠
       Some {| statusCode := 400; responseBody := "Missing connectionId" |} →
     ∃ k, headers req !! "x-seamless-connection-id" = Some (HString k)).
Proof.
  split; [|split; [|split]].
  - intros req s l Hl. unfold handleHTTPEstablishRequest, without_header. simpl.
    rewrite Hl, lookup_delete_eq. done.
  - intros req s l Hl. unfold handleHTTPMessageRequest, without_header. simpl.
    rewrite Hl, lookup_delete_eq. done.
  - intros req s Hresp. unfold handleHTTPEstablishRequest in Hresp.
    destruct (headers req !! "x-seamless-publickey") as [[k|l]|]; [by exists k| |];
      by destruct Hresp.
  - intros req s Hresp. unfold handleHTTPMessageRequest in Hresp.
    destruct (headers req !! "x-seamless-connection-id") as [[k|l]|]; [by exists k| |];
      by destruct Hresp.
Qed.

End Properties.

(** ** The handlers at work on the concrete server *)

Lemma establish_passes_validation :
  passes_validation Example.establish "pk_abc" "example.com" "10.0.0.1".
Proof. repeat split; (reflexivity || discriminate). Qed.

Lemma established_has_connection :
  connections Example.established !! "q7Zp0aLmX2cVb9NeR4tY" = Some Example.connection.
Proof. vm_compute. reflexivity. Qed.

(** The second draw of the generator collides with the registered id: the
    attempt is aborted without a response. *)
Lemma duplicate_id_aborts_establishment_witness :
  is_Some (connections Example.established
             !! generateId (Imports := Example.imports) (constructed Example.established)) ∧
  http_response
    (handleHTTPEstablishRequest (imports := Example.imports)
       Example.establish Example.established) = None.
Proof.
  assert (Hdup : is_Some (connections Example.established
             !! generateId (Imports := Example.imports) (constructed Example.established))).
  { exists Example.connection. vm_compute. reflexivity. }
  split; [exact Hdup|].
  destruct (duplicate_id_aborts_establishment (imports := Example.imports)
              Example.established Hdup) as (_ & _ & Hhttp).
  destruct (Hhttp _ _ _ _ establish_passes_validation) as (_ & Hnone & _).
  exact Hnone.
Defined.

Lemma establish_without_public_key_is_rejected_witness :
  missing_or_not_string (headers Example.establish_no_key !! "x-seamless-publickey") ∧
  http_server
    (handleHTTPEstablishRequest (imports := Example.imports)
       Example.establish_no_key Example.fresh) = Example.fresh.
Proof.
  assert (Hmissing :
    missing_or_not_string (headers Example.establish_no_key !! "x-seamless-publickey")).
  { left. vm_compute. reflexivity. }
  split; [exact Hmissing|].
  destruct (establish_without_public_key_is_rejected (imports := Example.imports)
              Example.establish_no_key Example.fresh Hmissing) as (_ & _ & _ & Hsame).
  exact Hsame.
Defined.

(** C3, as stated, fails: this request passes validation, yet the handler
    writes no response and registers nothing, because the id generated for
    the connection is already in the table and [handleNewConnection]
    throws. *)
Lemma establish_valid_request_unanswered :
  passes_validation Example.establish "pk_abc" "example.com" "10.0.0.1" ∧
  http_response
    (handleHTTPEstablishRequest (imports := Example.imports)
       Example.establish Example.established) = None ∧
  http_completion
    (handleHTTPEstablishRequest (imports := Example.imports)
       Example.establish Example.established) =
    Threw (JsError "Error"
             "Tried to add new connection with duplicate id q7Zp0aLmX2cVb9NeR4tY") ∧
  connections
    (http_server (handleHTTPEstablishRequest (imports := Example.imports)
                    Example.establish Example.established)) =
    connections Example.established.
Proof.
  split; [exact establish_passes_validation|].
  repeat split; vm_compute; reflexivity.
Qed.

Lemma establish_success_witness :
  passes_validation Example.establish "pk_abc" "example.com" "10.0.0.1" ∧
  JS.has (generateId (Imports := Example.imports) (constructed Example.fresh))
    (connections Example.fresh) = false ∧
  ∃ connection,
    http_response
      (handleHTTPEstablishRequest (imports := Example.imports)
         Example.establish Example.fresh) =
      Some {| statusCode := 200;
              responseBody := JSON_stringify [("connectionId", id connection)] |} ∧
    connections Example.established !! id connection = Some connection.
Proof.
  assert (Hfresh : JS.has (generateId (Imports := Example.imports) (constructed Example.fresh))
                     (connections Example.fresh) = false).
  { vm_compute. reflexivity. }
  split; [exact establish_passes_validation|]. split; [exact Hfresh|].
  destruct (establish_success (imports := Example.imports) Example.establish
              "pk_abc" "example.com" "10.0.0.1" Example.fresh
              establish_passes_validation Hfresh)
    as (c & _ & _ & _ & _ & _ & Hresponse & _ & Hregistered).
  exists c. split; [exact Hresponse | exact Hregistered].
Defined.

(** C4 fails on the code at a connection id that names a member of
    [Object.prototype]: no connection is registered under "constructor",
    yet the answer is the generic 500, not the 404. *)
Theorem message_for_inherited_name_is_answered_500 :
  connections Example.established !! "constructor" = None ∧
  http_response
    (handleHTTPMessageRequest (imports := Example.imports)
       (Example.message "constructor" "ping") Example.established) =
    Some {| statusCode := 500; responseBody := "Internal Server Error" |} ∧
  http_response
    (handleHTTPMessageRequest (imports := Example.imports)
       (Example.message "Jk3sD8fGh1WuQ6oTiE5r" "ping") Example.established) =
    Some {| statusCode := 404; responseBody := "Connection not found" |}.
Proof. repeat split; vm_compute; reflexivity. Qed.

Lemma boom_reaches_connection :
  http_inbound
    (handleHTTPMessageRequest (imports := Example.imports)
       (Example.message "q7Zp0aLmX2cVb9NeR4tY" "boom") Example.established) =
    [(Example.connection, "boom")].
Proof. vm_compute. reflexivity. Qed.

(** C5, as stated, fails: the inbound handler throws an internal error, the
    answer is the generic 500, and no console line written during the
    request carries the error. *)
Lemma internal_error_is_not_logged :
  ∃ e,
    handleIncomingHTTPRequest (Imports := Example.imports) Example.connection "boom"
      Example.established = (Threw e, Example.established) ∧
    isMoopsyError e = false ∧
    http_inbound
      (handleHTTPMessageRequest (imports := Example.imports)
         (Example.message "q7Zp0aLmX2cVb9NeR4tY" "boom") Example.established) =
      [(Example.connection, "boom")] ∧
    http_response
      (handleHTTPMessageRequest (imports := Example.imports)
         (Example.message "q7Zp0aLmX2cVb9NeR4tY" "boom") Example.established) =
      Some {| statusCode := 500; responseBody := "Internal Server Error" |} ∧
    ¬ logged e Example.established
        (http_server
           (handleHTTPMessageRequest (imports := Example.imports)
              (Example.message "q7Zp0aLmX2cVb9NeR4tY" "boom") Example.established)).
Proof.
  eexists. split; [reflexivity|]. split; [reflexivity|].
  split; [exact boom_reaches_connection|]. split; [vm_compute; reflexivity|].
  intros (tag & message & data & Hline). vm_compute in Hline.
  by apply not_elem_of_nil in Hline.
Qed.

Lemma denied_reaches_connection :
  http_inbound
    (handleHTTPMessageRequest (imports := Example.imports)
       (Example.message "q7Zp0aLmX2cVb9NeR4tY" "denied") Example.established) =
    [(Example.connection, "denied")].
Proof. vm_compute. reflexivity. Qed.

Lemma inbound_throw_is_answered_witness :
  http_inbound
    (handleHTTPMessageRequest (imports := Example.imports)
       (Example.message "q7Zp0aLmX2cVb9NeR4tY" "boom") Example.established) =
    [(Example.connection, "boom")] ∧
  handleIncomingHTTPRequest (Imports := Example.imports) Example.connection "boom"
    Example.established =
    (Threw (JsError "Error" "ECONNREFUSED db.internal:5432 user=moopsy"),
     Example.established) ∧
  http_response
    (handleHTTPMessageRequest (imports := Example.imports)
       (Example.message "q7Zp0aLmX2cVb9NeR4tY" "boom") Example.established) =
    Some {| statusCode := 500; responseBody := "Internal Server Error" |} ∧
  http_inbound
    (handleHTTPMessageRequest (imports := Example.imports)
       (Example.message "q7Zp0aLmX2cVb9NeR4tY" "denied") Example.established) =
    [(Example.connection, "denied")] ∧
  handleIncomingHTTPRequest (Imports := Example.imports) Example.connection "denied"
    Example.established = (Threw (MoopsyError 403 "Forbidden"), Example.established) ∧
  100 ≤ 403 ≤ 999 ∧
  http_response
    (handleHTTPMessageRequest (imports := Example.imports)
       (Example.message "q7Zp0aLmX2cVb9NeR4tY" "denied") Example.established) =
    Some {| statusCode := 403; responseBody := "Forbidden" |}.
Proof.
  assert (Hthrow :
    handleIncomingHTTPRequest (Imports := Example.imports) Example.connection "boom"
      Example.established =
      (Threw (JsError "Error" "ECONNREFUSED db.internal:5432 user=moopsy"),
       Example.established)).
  { reflexivity. }
  assert (Hdenied :
    handleIncomingHTTPRequest (Imports := Example.imports) Example.connection "denied"
      Example.established = (Threw (MoopsyError 403 "Forbidden"), Example.established)).
  { reflexivity. }
  assert (Hcode : 100 ≤ 403 ≤ 999) by lia.
  split; [exact boom_reaches_connection|]. split; [exact Hthrow|].
  split.
  { destruct (inbound_throw_is_answered (imports := Example.imports) _ _ _ _ _ _
                boom_reaches_connection Hthrow) as (_ & Hother & _).
    apply Hother. reflexivity. }
  split; [exact denied_reaches_connection|]. split; [exact Hdenied|].
  split; [exact Hcode|].
  destruct (inbound_throw_is_answered (imports := Example.imports) _ _ _ _ _ _
              denied_reaches_connection Hdenied) as (Hmoopsy & _).
  exact (Hmoopsy _ _ eq_refl Hcode).
Defined.

Lemma no_host_no_key_has_no_public_key :
  ∀ k, ¬ has_public_key Example.establish_no_host_no_key k.
Proof. intros k [Hk _]. vm_compute in Hk. discriminate Hk. Qed.

(** C6, as stated, fails: for a request with neither a hostname nor a
    public-key header the rejection is the missing-public-key 400, not the
    missing-hostname one. *)
Lemma missing_host_and_key_reports_key :
  headers_host Example.establish_no_host_no_key = None ∧
  headers Example.establish_no_host_no_key !! "x-seamless-publickey" = None ∧
  http_response
    (handleHTTPEstablishRequest (imports := Example.imports)
       Example.establish_no_host_no_key Example.fresh) =
    Some {| statusCode := 400; responseBody := "Missing x-seamless-publickey" |} ∧
  http_response
    (handleHTTPEstablishRequest (imports := Example.imports)
       Example.establish_no_host_no_key Example.fresh) ≠
    Some {| statusCode := 400; responseBody := "Unable to determine hostname" |}.
Proof.
  split; [reflexivity|]. split; [vm_compute; reflexivity|].
  split; [vm_compute; reflexivity|]. vm_compute. discriminate.
Qed.

Lemma establish_validation_order_witness :
  (∀ k, ¬ has_public_key Example.establish_no_host_no_key k) ∧
  http_response
    (handleHTTPEstablishRequest (imports := Example.imports)
       Example.establish_no_host_no_key Example.fresh) =
    Some {| statusCode := 400; responseBody := "Missing x-seamless-publickey" |}.
Proof.
  split; [exact no_host_no_key_has_no_public_key|].
  exact (proj1 (establish_validation_order (imports := Example.imports)
                  Example.establish_no_host_no_key Example.fresh)
           no_host_no_key_has_no_public_key).
Defined.

Lemma establish_registers_connection :
  establishes (imports := Example.imports) Example.fresh
    (handleHTTPEstablishRequest (imports := Example.imports) Example.establish Example.fresh)
    Example.connection.
Proof.
  split.
  - eexists. vm_compute. reflexivity.
  - vm_compute. reflexivity.
Qed.

Lemma establish_ip_source_witness :
  headers Example.establish !! "x-forwarded-for" = Some (HString "10.0.0.1") ∧
  establishes (imports := Example.imports) Example.fresh
    (handleHTTPEstablishRequest (imports := Example.imports) Example.establish Example.fresh)
    Example.connection ∧
  ip Example.connection = "10.0.0.1" ∧
  headers Example.establish_no_ip !! "x-forwarded-for" = None ∧
  connection_remoteAddress Example.establish_no_ip = None ∧
  http_server
    (handleHTTPEstablishRequest (imports := Example.imports)
       Example.establish_no_ip Example.fresh) = Example.fresh ∧
  has_public_key Edge.establish_direct "pk_abc" ∧
  has_hostname Edge.establish_direct "example.com" ∧
  headers Edge.establish_direct !! "x-forwarded-for" = None ∧
  connection_remoteAddress Edge.establish_direct = Some "192.168.0.7" ∧
  JS.has (generateId (Imports := Example.imports) (constructed Example.fresh))
    (connections Example.fresh) = false ∧
  ∃ connection,
    establishes (imports := Example.imports) Example.fresh
      (handleHTTPEstablishRequest (imports := Example.imports)
         Edge.establish_direct Example.fresh) connection ∧
    ip connection = "192.168.0.7".
Proof.
  assert (Hheader : headers Example.establish !! "x-forwarded-for" = Some (HString "10.0.0.1")).
  { vm_compute. reflexivity. }
  assert (Habsent : headers Example.establish_no_ip !! "x-forwarded-for" = None).
  { vm_compute. reflexivity. }
  assert (Hpeer : connection_remoteAddress Example.establish_no_ip = None).
  { reflexivity. }
  assert (Hkey : has_public_key Edge.establish_direct "pk_abc").
  { split; [vm_compute; reflexivity | discriminate]. }
  assert (Hhost : has_hostname Edge.establish_direct "example.com").
  { split; [reflexivity | discriminate]. }
  assert (Hdirect : headers Edge.establish_direct !! "x-forwarded-for" = None).
  { vm_compute. reflexivity. }
  assert (Haddr : connection_remoteAddress Edge.establish_direct = Some "192.168.0.7").
  { reflexivity. }
  assert (Hne : "192.168.0.7" ≠ "") by discriminate.
  assert (Hfresh : JS.has (generateId (Imports := Example.imports) (constructed Example.fresh))
                     (connections Example.fresh) = false).
  { vm_compute. reflexivity. }
  split; [exact Hheader|]. split; [exact establish_registers_connection|].
  split.
  { exact (proj1 (establish_ip_source (imports := Example.imports)
                    Example.establish Example.fresh)
             _ _ Hheader establish_registers_connection). }
  split; [exact Habsent|]. split; [exact Hpeer|].
  split.
  { destruct (establish_ip_source (imports := Example.imports)
                Example.establish_no_ip Example.fresh) as (_ & _ & _ & Hneither & _).
    exact (proj2 (Hneither Habsent Hpeer)). }
  split; [exact Hkey|]. split; [exact Hhost|]. split; [exact Hdirect|].
  split; [exact Haddr|]. split; [exact Hfresh|].
  destruct (establish_ip_source (imports := Example.imports)
              Edge.establish_direct Example.fresh) as (_ & _ & _ & _ & _ & Hfallback).
  exact (Hfallback _ _ _ Hkey Hhost Hdirect Haddr Hne Hfresh).
Defined.


Lemma handleNewConnection_returns_connection :
  handleNewConnection (imports := Example.imports) None "example.com" "10.0.0.1"
    (Some {| key := "pk_abc"; type := "ecdsa" |}) Example.fresh =
    (Returned Example.connection, Example.established).
Proof. vm_compute. reflexivity. Qed.

Lemma returned_connection_is_registered_until_disconnect_witness :
  handleNewConnection (imports := Example.imports) None "example.com" "10.0.0.1"
    (Some {| key := "pk_abc"; type := "ecdsa" |}) Example.fresh =
    (Returned Example.connection, Example.established) ∧
  connections Example.established !! id Example.connection = Some Example.connection ∧
  connections (disconnect Example.connection Example.established) !! id Example.connection =
    None.
Proof.
  split; [exact handleNewConnection_returns_connection|].
  destruct (returned_connection_is_registered_until_disconnect (imports := Example.imports)
              _ _ _ _ _ _ _ handleNewConnection_returns_connection)
    as (Hin & _ & _ & _ & _ & Hout).
  split; [exact Hin | exact Hout].
Defined.

Lemma non_string_header_is_rejected_as_absent_witness :
  headers Example.establish_key_array !! "x-seamless-publickey" =
    Some (HArray ["pk_abc"; "pk_def"]) ∧
  handleHTTPEstablishRequest (imports := Example.imports)
    Example.establish_key_array Example.fresh =
  handleHTTPEstablishRequest (imports := Example.imports)
    (without_header "x-seamless-publickey" Example.establish_key_array) Example.fresh.
Proof.
  assert (Harray : headers Example.establish_key_array !! "x-seamless-publickey" =
                     Some (HArray ["pk_abc"; "pk_def"])).
  { vm_compute. reflexivity. }
  split; [exact Harray|].
  exact (proj1 (proj1 (non_string_header_is_rejected_as_absent (imports := Example.imports))
                  _ Example.fresh _ Harray)).
Defined.

(** ** The table over time *)

Section Invariants.
Context {imports : Imports}.

(** *** Running disconnect callbacks *)

Lemma run_hooks_fields (l : list DisconnectHook) (s : MoopsyServer) :
  let s' := fold_left (λ s cb, run_hook cb s) l s in
  opts_verbose s' = opts_verbose s ∧ constructed s' = constructed s ∧
  disconnectHooks s' = disconnectHooks s ∧ console s' = console s.
Proof.
  revert s. induction l as [|[k] l IH]; intros s; [done|].
  destruct (IH (run_hook (DeleteConnection k) s)) as (Hv & Hn & Hh & Hc).
  cbn zeta in *. cbn [fold_left]. by rewrite Hv, Hn, Hh, Hc.
Qed.

Lemma run_hooks_absent (l : list DisconnectHook) (s : MoopsyServer) (k : string) :
  connections s !! k = None →
  connections (fold_left (λ s cb, run_hook cb s) l s) !! k = None.
Proof.
  revert s. induction l as [|[k'] l IH]; intros s Hk; [done|].
  cbn [fold_left]. apply IH. rewrite run_hook_lookup. by case_decide.
Qed.

Lemma run_hooks_removed (l : list DisconnectHook) (s : MoopsyServer) (k : string) :
  DeleteConnection k ∈ l →
  connections (fold_left (λ s cb, run_hook cb s) l s) !! k = None.
Proof.
  revert s. induction l as [|cb l IH]; intros s Hin; [by apply not_elem_of_nil in Hin|].
  apply elem_of_cons in Hin as [<- | Hin]; [|by apply IH].
  cbn [fold_left]. apply run_hooks_absent. rewrite run_hook_lookup. by rewrite decide_True.
Qed.

Lemma run_hooks_kept (l : list DisconnectHook) (s : MoopsyServer) (k : string) :
  DeleteConnection k ∉ l →
  connections (fold_left (λ s cb, run_hook cb s) l s) !! k = connections s !! k.
Proof.
  revert s. induction l as [|[k'] l IH]; intros s Hin; [done|].
  apply not_elem_of_cons in Hin as [Hne Hin]. cbn [fold_left]. rewrite IH by done.
  rewrite run_hook_lookup. rewrite decide_False; [done | congruence].
Qed.

Lemma run_hooks_subset (l : list DisconnectHook) (s : MoopsyServer) (k : string)
    (c : MoopsyConnection) :
  connections (fold_left (λ s cb, run_hook cb s) l s) !! k = Some c →
  connections s !! k = Some c.
Proof.
  revert s. induction l as [|[k'] l IH]; intros s Hk; [done|].
  cbn [fold_left] in Hk. apply IH in Hk. rewrite run_hook_lookup in Hk. by case_decide.
Qed.

Lemma hooks_of_elem (c : MoopsyConnection) (s : MoopsyServer) (cb : DisconnectHook) :
  cb ∈ hooks_of c s ↔ (objectId c, cb) ∈ disconnectHooks s.
Proof.
  unfold hooks_of. rewrite list_elem_of_In, in_map_iff. split.
  - intros ([o cb'] & <- & Hin). apply list_elem_of_In, list_elem_of_filter in Hin as [Ho Hin].
    simpl in Ho. by subst o.
  - intros Hin. exists (objectId c, cb). split; [done|].
    apply list_elem_of_In, list_elem_of_filter. done.
Qed.

Lemma server_eq (s t : MoopsyServer) :
  opts_verbose s = opts_verbose t → connections s = connections t →
  constructed s = constructed t → disconnectHooks s = disconnectHooks t →
  console s = console t → s = t.
Proof. destruct s, t. simpl. by intros -> -> -> -> ->. Qed.

(** *** What keeps the server consistent *)

Lemma consistent_new (verbose : bool) : consistent (new_MoopsyServer verbose).
Proof.
  split; simpl; try (intros k c Hk; by rewrite lookup_empty in Hk).
  intros o cb Hin. by apply not_elem_of_nil in Hin.
Qed.

Lemma consistent_handleNewConnection rawConnection hostname ip publicKey s :
  consistent s → consistent (handleNewConnection rawConnection hostname ip publicKey s).2.
Proof.
  intros [Hkey Hown Hdrawn Hhooked Hhooks].
  destruct (JS.has (generateId (constructed s)) (connections s)) eqn:Hin.
  - rewrite handleNewConnection_duplicate by done. split; simpl; try done.
    + intros k c Hk. destruct (Hdrawn k c Hk). split; [lia | done].
    + intros o cb Ho. destruct (Hhooks o cb Ho). split; [lia | done].
  - rewrite handleNewConnection_fresh by done. apply has_false in Hin as [_ Hinh].
    split; simpl.
    + intros k c [[<- <-]|[_ Hk]]%lookup_insert_Some; [done | by eapply Hkey].
    + intros k c [[<- <-]|[_ Hk]]%lookup_insert_Some; [done | by eapply Hown].
    + intros k c [[<- <-]|[_ Hk]]%lookup_insert_Some; simpl; [split; [lia | done]|].
      destruct (Hdrawn k c Hk). split; [lia | done].
    + intros k c [[<- <-]|[_ Hk]]%lookup_insert_Some; simpl; apply elem_of_app.
      * right. by apply list_elem_of_singleton.
      * left. by eapply Hhooked.
    + intros o cb [Ho|[= -> ->]%list_elem_of_singleton]%elem_of_app.
      * destruct (Hhooks o cb Ho). split; [lia | done].
      * split; [lia | done].
Qed.

Lemma consistent_establish (req : Request) (s : MoopsyServer) :
  consistent s → consistent (http_server (handleHTTPEstablishRequest req s)).
Proof.
  intros Hs.
  destruct (establish_cases req s) as [Hc|[Hc|[Hc|(k & h & i & Hvalid)]]];
    try (by rewrite Hc).
  rewrite (establish_validated _ _ _ _ _ Hvalid).
  pose proof (consistent_handleNewConnection None h i
                (Some {| key := k; type := "ecdsa" |}) s Hs) as Hnew.
  by destruct (handleNewConnection _ _ _ _ _) as [[c|e] s1].
Qed.

Lemma consistent_socket (socket : Socket) (s : MoopsyServer) :
  consistent s → consistent (socket_server (handleNewSocketIOConnection socket s)).
Proof.
  intros Hs. unfold handleNewSocketIOConnection.
  destruct (handshake_headers_host socket) as [h|]; [|done].
  pose proof (consistent_handleNewConnection (Some socket) h
                (determineIPFromSocket socket) None s Hs) as Hnew.
  by destruct (handleNewConnection _ _ _ _ _) as [[c|e] s1].
Qed.

Lemma consistent_disconnect (c : MoopsyConnection) (s : MoopsyServer) :
  consistent s → consistent (disconnect c s).
Proof.
  intros [Hkey Hown Hdrawn Hhooked Hhooks]. unfold disconnect.
  destruct (run_hooks_fields (hooks_of c s) s) as (_ & Hn & Hh & _).
  split; simpl in *; rewrite ?Hn, ?Hh; try done;
    intros k c' Hk%run_hooks_subset; eauto.
Qed.

Lemma consistent_message (req : Request) (s : MoopsyServer) :
  inbound_keeps_consistent →
  consistent s → consistent (http_server (handleHTTPMessageRequest req s)).
Proof.
  intros Hinbound Hs. unfold handleHTTPMessageRequest.
  destruct (guard_string _); [|done].
  destruct (JS.get _ _) as [c| |]; try done; [|by rewrite message_finish_server].
  unfold message_try. destruct (safeJSONParse _) as [p|];
    [|by rewrite message_finish_server].
  specialize (Hinbound c p s Hs).
  destruct (handleIncomingHTTPRequest c p s). by rewrite message_finish_server.
Qed.

Lemma consistent_step (ev : ServerEvent) (s : MoopsyServer) :
  inbound_keeps_consistent → consistent s → consistent (step ev s).
Proof.
  intros Hinbound Hs. destruct ev; simpl.
  - by apply consistent_establish.
  - by apply consistent_message.
  - by apply consistent_socket.
  - by apply consistent_disconnect.
Qed.

Lemma run_consistent (evs : list ServerEvent) (s : MoopsyServer) :
  inbound_keeps_consistent → consistent s → consistent (run evs s).
Proof.
  intros Hinbound. revert s. induction evs as [|ev evs IH]; intros s Hs; [done|].
  apply IH. by apply consistent_step.
Qed.

(** X1. Whatever requests, sockets and disconnections a newly constructed
    server handles, in whatever order, it stays consistent, provided the
    code of the connections keeps it so. *)
Theorem reachable_server_is_consistent (verbose : bool) (evs : list ServerEvent) :
  inbound_keeps_consistent → consistent (run evs (new_MoopsyServer verbose)).
Proof.
  intros Hinbound. unfold run.
  generalize (consistent_new verbose). generalize (new_MoopsyServer verbose).
  induction evs as [|ev evs IH]; intros s Hs; [exact Hs|].
  cbn [fold_left]. apply IH.
  destruct ev; simpl.
  - by apply consistent_establish.
  - by apply consistent_message.
  - by apply consistent_socket.
  - by apply consistent_disconnect.
Qed.

Lemma disconnect_lookup (s : MoopsyServer) (k : string) (c : MoopsyConnection) :
  consistent s → connections s !! k = Some c →
  ∀ k', connections (disconnect c s) !! k' = delete k (connections s) !! k'.
Proof.
  intros Hs Hk k'. unfold disconnect. rewrite lookup_delete.
  pose proof (keyed s Hs _ _ Hk) as Hid. destruct (drawn s Hs _ _ Hk) as [_ Hgen].
  case_decide as Hkk.
  - subst k'. apply run_hooks_removed, hooks_of_elem. rewrite <- Hid. by eapply hooked.
  - apply run_hooks_kept. intros Hin%hooks_of_elem.
    destruct (hooks_drawn s Hs _ _ Hin) as [_ Hcb]. congruence.
Qed.

(** X3. In a consistent server the disconnection of a registered
    connection is exactly one removal of its id from the table: its entry
    goes, every other entry and the rest of the server stay. *)
Theorem disconnect_is_one_removal (s : MoopsyServer) (k : string) (c : MoopsyConnection) :
  consistent s → connections s !! k = Some c →
  disconnect c s = run_hook (DeleteConnection k) s.
Proof.
  intros Hs Hk.
  destruct (run_hooks_fields (hooks_of c s) s) as (Hv & Hn & Hh & Hc).
  apply server_eq; try done.
  apply map_eq. intros k'. by rewrite (disconnect_lookup s k c).
Qed.

Lemma hook_elem_dec (k : string) (l : list DisconnectHook) :
  DeleteConnection k ∈ l ∨ DeleteConnection k ∉ l.
Proof.
  induction l as [|[k'] l [IH|IH]].
  - right. apply not_elem_of_nil.
  - left. by right.
  - destruct (decide (k = k')) as [->|Hne].
    + left. by left.
    + right. apply not_elem_of_cons. split; [congruence | done].
Qed.

(** X4. Disconnecting a connection a second time changes nothing, in any
    state of the server. *)
Theorem disconnect_twice (c : MoopsyConnection) (s : MoopsyServer) :
  disconnect c (disconnect c s) = disconnect c s.
Proof.
  assert (Hsame : hooks_of c (disconnect c s) = hooks_of c s).
  { unfold hooks_of at 1 2. unfold disconnect.
    by destruct (run_hooks_fields (hooks_of c s) s) as (_ & _ & -> & _). }
  unfold disconnect at 1. rewrite Hsame.
  destruct (run_hooks_fields (hooks_of c s) (disconnect c s)) as (Hv & Hn & Hh & Hc).
  apply server_eq; try done.
  apply map_eq. intros k. destruct (hook_elem_dec k (hooks_of c s)) as [Hin|Hin].
  - rewrite run_hooks_removed by done. unfold disconnect. by rewrite run_hooks_removed.
  - by rewrite run_hooks_kept.
Qed.

(** X5. In a consistent server, when [handleNewConnection] returns a
    connection and that connection then disconnects, the table is again
    what it was before the connection was made. *)
Theorem connect_then_disconnect_restores_table rawConnection hostname ip publicKey
    (s s' : MoopsyServer) (c : MoopsyConnection) :
  consistent s →
  handleNewConnection rawConnection hostname ip publicKey s = (Returned c, s') →
  connections (disconnect c s') = connections s.
Proof.
  intros Hs Hrun.
  pose proof (consistent_handleNewConnection rawConnection hostname ip publicKey s Hs) as Hs'.
  pose proof (handleNewConnection_Returned _ _ _ _ _ _ _ Hrun) as Hfresh.
  rewrite Hrun in Hs'. simpl in Hs'.
  rewrite handleNewConnection_fresh in Hrun by done. injection Hrun as <- <-.
  apply has_false in Hfresh as [Hnone _].
  set (c := (new_MoopsyConnection rawConnection hostname ip publicKey s).1) in *.
  apply map_eq. intros k.
  rewrite (disconnect_lookup _ (id c) c Hs'); [|simpl; apply lookup_insert_eq].
  simpl. by rewrite delete_insert_id.
Qed.

(** X6. Making a connection never removes or replaces an entry of the
    table: whatever was registered before [handleNewConnection], the HTTP
    establish handler or the socket handler ran is registered after, whether
    the run returned, rejected or threw. *)
Theorem establishment_keeps_existing_entries (s : MoopsyServer) (k : string)
    (c : MoopsyConnection) :
  connections s !! k = Some c →
  (∀ rawConnection hostname ip publicKey,
     connections (handleNewConnection rawConnection hostname ip publicKey s).2 !! k = Some c) ∧
  (∀ req, connections (http_server (handleHTTPEstablishRequest req s)) !! k = Some c) ∧
  (∀ socket, connections (socket_server (handleNewSocketIOConnection socket s)) !! k = Some c).
Proof.
  intros Hk.
  assert (Hnew : ∀ rawConnection hostname ip publicKey,
    connections (handleNewConnection rawConnection hostname ip publicKey s).2 !! k = Some c).
  { intros raw h i pk.
    destruct (JS.has (generateId (constructed s)) (connections s)) eqn:Hin.
    - by rewrite handleNewConnection_duplicate.
    - rewrite handleNewConnection_fresh by done. simpl.
      apply has_false in Hin as [Hnone _].
      rewrite lookup_insert_ne; [done | congruence]. }
  split; [exact Hnew|]. split.
  - intros req.
    destruct (establish_cases req s) as [Hc|[Hc|[Hc|(pk & h & i & Hvalid)]]];
      try (by rewrite Hc).
    rewrite (establish_validated _ _ _ _ _ Hvalid).
    specialize (Hnew None h i (Some {| key := pk; type := "ecdsa" |})).
    by destruct (handleNewConnection _ _ _ _ _) as [[c'|e] s1].
  - intros socket. unfold handleNewSocketIOConnection.
    destruct (handshake_headers_host socket) as [h|]; [|done].
    specialize (Hnew (Some socket) h (determineIPFromSocket socket) None).
    by destruct (handleNewConnection _ _ _ _ _) as [[c'|e] s1].
Qed.

(** *** The establish handlers, from outside *)

(** X7. An establish run that answers 200 has put exactly one new entry
    into the table, under an id that was not there, and built exactly one
    connection object; a run that does not answer 200 leaves the table as it
    was. *)
Theorem establish_answer_and_table (req : Request) (s : MoopsyServer) :
  (∀ body,
     http_response (handleHTTPEstablishRequest req s) =
       Some {| statusCode := 200; responseBody := body |} →
     ∃ c, connections s !! id c = None ∧
          connections (http_server (handleHTTPEstablishRequest req s)) =
            <[id c := c]> (connections s) ∧
          size (connections (http_server (handleHTTPEstablishRequest req s))) =
            S (size (connections s)) ∧
          constructed (http_server (handleHTTPEstablishRequest req s)) =
            S (constructed s)) ∧
  ((∀ body, http_response (handleHTTPEstablishRequest req s) ≠
              Some {| statusCode := 200; responseBody := body |}) →
     connections (http_server (handleHTTPEstablishRequest req s)) = connections s).
Proof.
  destruct (establish_cases req s) as [Hc|[Hc|[Hc|(pk & h & i & Hvalid)]]];
    try (rewrite Hc; split; [intros body Hbody; discriminate Hbody | done]).
  rewrite (establish_validated _ _ _ _ _ Hvalid).
  destruct (JS.has (generateId (constructed s)) (connections s)) eqn:Hin.
  - rewrite handleNewConnection_duplicate by done.
    split; [intros body Hbody; discriminate Hbody | done].
  - rewrite handleNewConnection_fresh by done. apply has_false in Hin as [Hnone _].
    split.
    + intros body _.
      exists (new_MoopsyConnection None h i (Some {| key := pk; type := "ecdsa" |}) s).1.
      simpl. split; [exact Hnone|]. split; [reflexivity|]. split; [|reflexivity].
      by apply map_size_insert_None.
    + intros Hno. by destruct (Hno _ eq_refl).
Qed.

(** X8. The establish handler leaves a request without any response in
    one case only: the request passes validation and the id generated for
    its connection is already a property name of the table; the handler
    then ends with the duplicate-id error, and with it only then. *)
Theorem establish_is_unanswered_iff (req : Request) (s : MoopsyServer) :
  (http_response (handleHTTPEstablishRequest req s) = None ↔
   ∃ pk h i, passes_validation req pk h i ∧
             JS.has (generateId (constructed s)) (connections s) = true) ∧
  (http_response (handleHTTPEstablishRequest req s) = None ↔
   http_completion (handleHTTPEstablishRequest req s) = Threw (duplicate_id_error s)) ∧
  (is_Some (http_response (handleHTTPEstablishRequest req s)) ↔
   http_completion (handleHTTPEstablishRequest req s) = Returned tt).
Proof.
  destruct (establish_cases req s) as [Hc|[Hc|[Hc|(pk & h & i & Hvalid)]]].
  1-3: rewrite Hc; simpl;
       (split; [|split; [by split | split; [done | by eexists]]]);
       (split; [done|]);
       intros (pk & h & i & (Hk & Hh & Hi) & _); unfold handleHTTPEstablishRequest in Hc;
       apply guard_string_Some in Hk; apply guard_truthy_Some in Hh, Hi;
       rewrite Hk, Hh, Hi in Hc;
       destruct (handleNewConnection _ _ _ _ _) as [[c|e] s1]; discriminate Hc.
  rewrite (establish_validated _ _ _ _ _ Hvalid).
  destruct (JS.has (generateId (constructed s)) (connections s)) eqn:Hin.
  - rewrite handleNewConnection_duplicate by done. simpl. split; [|split].
    + split; [intros _; by exists pk, h, i | done].
    + by split.
    + split; [by intros [? ?] | done].
  - rewrite handleNewConnection_fresh by done. simpl. split; [|split].
    + split; [done | intros (_ & _ & _ & _ & ?); congruence].
    + by split.
    + split; [done | by eexists].
Qed.

(** X9. A socket whose handshake carries a host, be it the empty string,
    is accepted when the id generated for it is not in the table: nothing is
    written to the socket and the table holds, under that id, a connection
    with the socket as its transport, the handshake host as hostname, the ip
    determined from the socket and no public key. *)
Theorem socket_with_hostname_is_registered (socket : Socket) (host : string)
    (s : MoopsyServer) :
  handshake_headers_host socket = Some host →
  JS.has (generateId (constructed s)) (connections s) = false →
  socket_events (handleNewSocketIOConnection socket s) = [] ∧
  socket_completion (handleNewSocketIOConnection socket s) = Returned tt ∧
  connections (socket_server (handleNewSocketIOConnection socket s))
    !! generateId (constructed s) =
    Some {| objectId := constructed s;
            id := generateId (constructed s);
            rawConnection := Some socket;
            hostname := host;
            ip := determineIPFromSocket socket;
            publicKey := None |}.
Proof.
  intros Hhost Hfresh. unfold handleNewSocketIOConnection. rewrite Hhost.
  rewrite handleNewConnection_fresh by done. simpl.
  split; [done|]. split; [done|]. apply lookup_insert_eq.
Qed.

(** X10. A forwarded-for header that is present but empty (the empty
    string or the empty array) is not replaced by the peer address: whatever
    the peer address and the other headers are, the establish request is
    answered 400 and the server is left as it was. *)
Theorem empty_forwarded_for_is_rejected (req : Request) (s : MoopsyServer) :
  headers req !! "x-forwarded-for" = Some (HString "") ∨
  headers req !! "x-forwarded-for" = Some (HArray []) →
  (∃ body, http_response (handleHTTPEstablishRequest req s) =
             Some {| statusCode := 400; responseBody := body |}) ∧
  http_server (handleHTTPEstablishRequest req s) = s.
Proof.
  intros Hempty.
  assert (Hip : determine_ip req = Some "").
  { unfold determine_ip. by destruct Hempty as [-> | ->]. }
  destruct (establish_cases req s) as [Hc|[Hc|[Hc|(pk & h & i & _ & _ & Hi & Hne)]]];
    try (rewrite Hc; simpl; eauto; fail).
  congruence.
Qed.

(** *** The message handler, from outside *)

Lemma message_found (req : Request) (s : MoopsyServer) (k : string) (c : MoopsyConnection) :
  headers req !! "x-seamless-connection-id" = Some (HString k) → k ≠ "" →
  connections s !! k = Some c →
  handleHTTPMessageRequest req s =
    let '(r, calls, s') := message_try c (rawBody req) s in
    message_finish r calls s'.
Proof.
  intros Hk Hne Hc. unfold handleHTTPMessageRequest.
  rewrite (proj2 (guard_string_Some _ k)) by done.
  unfold JS.get. by rewrite Hc.
Qed.

(** X11. A message request that names a registered connection by a
    non-empty id, whose body parses, which the connection handles and whose
    result serializes, is answered 200 with the serialized result; the
    connection was called once, with the parsed body, and the server is as
    that call left it. *)
Theorem message_is_delivered (req : Request) (s s' : MoopsyServer) (k : string)
    (c : MoopsyConnection) (payload : Payload) (data : Data) (text : string) :
  headers req !! "x-seamless-connection-id" = Some (HString k) → k ≠ "" →
  connections s !! k = Some c →
  safeJSONParse (rawBody req) = Returned payload →
  handleIncomingHTTPRequest c payload s = (Returned data, s') →
  EJSON_stringify data = Returned text →
  handleHTTPMessageRequest req s =
    {| http_server := s';
       http_response := Some {| statusCode := 200; responseBody := text |};
       http_inbound := [(c, payload)];
       http_completion := Returned tt |}.
Proof.
  intros Hk Hne Hc Hparse Hcall Htext. rewrite (message_found _ _ _ _ Hk Hne Hc).
  unfold message_try. rewrite Hparse, Hcall. simpl. rewrite Htext.
  apply message_finish_result.
Qed.




(** X14. In a consistent server no connection is filed under a name
    inherited from [Object.prototype], so a message whose connection id is
    such a name and whose body parses is always answered with the generic
    500, never with the 404; no connection is called and the server is left
    as it was. *)
Theorem message_for_inherited_name (req : Request) (s : MoopsyServer) (k : string)
    (payload : Payload) :
  consistent s → inherited k = true →
  headers req !! "x-seamless-connection-id" = Some (HString k) →
  safeJSONParse (rawBody req) = Returned payload →
  handleHTTPMessageRequest req s =
    {| http_server := s;
       http_response := Some {| statusCode := 500; responseBody := "Internal Server Error" |};
       http_inbound := [];
       http_completion := Returned tt |}.
Proof.
  intros Hs Hinh Hk Hparse.
  assert (k ≠ "") as Hne by (intros ->; discriminate Hinh).
  assert (connections s !! k = None) as Hown.
  { destruct (connections s !! k) as [c|] eqn:Hc; [|done].
    pose proof (own_not_inherited s Hs _ _ Hc). congruence. }
  unfold handleHTTPMessageRequest.
  rewrite (proj2 (guard_string_Some _ k)) by done.
  unfold JS.get. rewrite Hown, Hinh. unfold message_try_inherited.
  by rewrite Hparse.
Qed.

(** X15. The message handler reads nothing of a request but its
    connection-id header and its body: it checks neither hostname nor ip,
    and two requests that agree on those two are handled alike. *)
Theorem message_reads_only_id_and_body (req1 req2 : Request) (s : MoopsyServer) :
  headers req1 !! "x-seamless-connection-id" = headers req2 !! "x-seamless-connection-id" →
  rawBody req1 = rawBody req2 →
  handleHTTPMessageRequest req1 s = handleHTTPMessageRequest req2 s.
Proof. intros Hid Hbody. unfold handleHTTPMessageRequest. by rewrite Hid, Hbody. Qed.

Lemma message_finish_cases (r : Outcome string) calls (s : MoopsyServer) :
  (∃ response,
     http_response (message_finish r calls s) = Some response ∧
     http_completion (message_finish r calls s) = Returned tt) ∨
  (∃ code message,
     r = Threw (MoopsyError code message) ∧ ¬ 100 ≤ code ≤ 999 ∧
     http_response (message_finish r calls s) = None ∧
     http_completion (message_finish r calls s) =
       Threw (JsError "RangeError" ("Invalid status code: " +:+ pretty code))).
Proof.
  destruct r as [text|[code message|name message]].
  - left. eexists. by rewrite message_finish_result.
  - destruct (decide (100 ≤ code ≤ 999)) as [Hcode|Hcode].
    + left. eexists. by rewrite message_finish_moopsy.
    + right. exists code, message. by rewrite message_finish_invalid.
  - left. eexists. by rewrite message_finish_other.
Qed.

(** X16. Once the body has been read, the message handler ends either
    with a response written and its promise resolved, or with no response
    and the RangeError of [writeHead] for a status code below 100 or above
    999; whatever else the parser, the connection or the serializer throws
    is caught and answered. *)
Theorem message_is_unanswered_only_on_invalid_status (req : Request) (s : MoopsyServer) :
  (is_Some (http_response (handleHTTPMessageRequest req s)) ↔
   http_completion (handleHTTPMessageRequest req s) = Returned tt) ∧
  (http_response (handleHTTPMessageRequest req s) = None ↔
   ∃ code, ¬ 100 ≤ code ≤ 999 ∧
           http_completion (handleHTTPMessageRequest req s) =
             Threw (JsError "RangeError" ("Invalid status code: " +:+ pretty code))).
Proof.
  assert (Hfinish : ∀ r calls s1,
    (is_Some (http_response (message_finish r calls s1)) ↔
     http_completion (message_finish r calls s1) = Returned tt) ∧
    (http_response (message_finish r calls s1) = None ↔
     ∃ code, ¬ 100 ≤ code ≤ 999 ∧
             http_completion (message_finish r calls s1) =
               Threw (JsError "RangeError" ("Invalid status code: " +:+ pretty code)))).
  { intros r calls s1.
    destruct (message_finish_cases r calls s1)
      as [(response & -> & ->)|(code & message & _ & Hcode & -> & ->)].
    - split.
      + split; [done | by eexists].
      + split; [done | by intros (code & _ & ?)].
    - split.
      + split; [by intros [? ?] | done].
      + split; [intros _; by exists code | done]. }
  assert (Hrespond : ∀ code body,
    (is_Some (http_response (respond code body s)) ↔
     http_completion (respond code body s) = Returned tt) ∧
    (http_response (respond code body s) = None ↔
     ∃ code', ¬ 100 ≤ code' ≤ 999 ∧
              http_completion (respond code body s) =
                Threw (JsError "RangeError" ("Invalid status code: " +:+ pretty code')))).
  { intros code body. simpl. split.
    - split; [done | by eexists].
    - split; [done | by intros (code' & _ & ?)]. }
  unfold handleHTTPMessageRequest.
  destruct (guard_string _); [|apply Hrespond].
  destruct (JS.get _ _) as [c| |]; [|apply Hfinish|apply Hrespond].
  destruct (message_try c (rawBody req) s) as [[r calls] s1]. apply Hfinish.
Qed.

(** X17. None of the handlers writes to the console or changes the
    options: after an establish request, a socket connection or a
    disconnection both are as before, and a message request that reached no
    connection leaves the whole server as it was. *)
Theorem handlers_never_log (s : MoopsyServer) :
  (∀ req, console (http_server (handleHTTPEstablishRequest req s)) = console s ∧
          opts_verbose (http_server (handleHTTPEstablishRequest req s)) = opts_verbose s) ∧
  (∀ socket, console (socket_server (handleNewSocketIOConnection socket s)) = console s ∧
             opts_verbose (socket_server (handleNewSocketIOConnection socket s)) =
               opts_verbose s) ∧
  (∀ c, console (disconnect c s) = console s ∧
        opts_verbose (disconnect c s) = opts_verbose s) ∧
  (∀ req, http_inbound (handleHTTPMessageRequest req s) = [] →
          http_server (handleHTTPMessageRequest req s) = s).
Proof.
  assert (Hnew : ∀ rawConnection hostname ip publicKey,
    console (handleNewConnection rawConnection hostname ip publicKey s).2 = console s ∧
    opts_verbose (handleNewConnection rawConnection hostname ip publicKey s).2 =
      opts_verbose s).
  { intros raw h i pk.
    destruct (JS.has (generateId (constructed s)) (connections s)) eqn:Hin.
    - by rewrite handleNewConnection_duplicate.
    - by rewrite handleNewConnection_fresh. }
  split; [|split; [|split]].
  - intros req.
    destruct (establish_cases req s) as [Hc|[Hc|[Hc|(pk & h & i & Hvalid)]]];
      try (by rewrite Hc).
    rewrite (establish_validated _ _ _ _ _ Hvalid).
    specialize (Hnew None h i (Some {| key := pk; type := "ecdsa" |})).
    by destruct (handleNewConnection _ _ _ _ _) as [[c'|e] s1].
  - intros socket. unfold handleNewSocketIOConnection.
    destruct (handshake_headers_host socket) as [h|]; [|done].
    specialize (Hnew (Some socket) h (determineIPFromSocket socket) None).
    by destruct (handleNewConnection _ _ _ _ _) as [[c'|e] s1].
  - intros c. unfold disconnect.
    by destruct (run_hooks_fields (hooks_of c s) s) as (-> & _ & _ & ->).
  - intros req. apply message_server_unchanged.
Qed.

(** X18. In a consistent server, once a registered connection has
    disconnected, a message that names its id reaches no connection and
    changes nothing: it is answered 404, or, when that id is the empty
    string, with the 400 of the missing connection id. *)
Theorem message_after_disconnect_is_rejected (req : Request) (s : MoopsyServer) (k : string)
    (c : MoopsyConnection) :
  consistent s → connections s !! k = Some c →
  headers req !! "x-seamless-connection-id" = Some (HString k) →
  (k ≠ "" →
     handleHTTPMessageRequest req (disconnect c s) =
       respond 404 "Connection not found" (disconnect c s)) ∧
  (k = "" →
     handleHTTPMessageRequest req (disconnect c s) =
       respond 400 "Missing connectionId" (disconnect c s)).
Proof.
  intros Hs Hc Hk. unfold handleHTTPMessageRequest. rewrite Hk. split.
  - intros Hne. rewrite (proj2 (guard_string_Some _ k)) by done.
    unfold JS.get. rewrite (disconnect_lookup s k c Hs Hc), lookup_delete_eq.
    by rewrite (own_not_inherited s Hs _ _ Hc).
  - by intros ->.
Qed.

(** X19. The id an establish request is answered with leads back to the
    connection made for it, unless that id is the empty string: a following
    message that carries a non-empty id in its header, and whose body
    parses, is handed to that very connection; when the generator drew the
    empty string, the message is answered with the 400 of the missing
    connection id and the connection cannot be reached. *)
Theorem established_connection_receives_messages (req msg : Request) (pk host addr : string)
    (s : MoopsyServer) (payload : Payload) :
  passes_validation req pk host addr →
  JS.has (generateId (constructed s)) (connections s) = false →
  headers msg !! "x-seamless-connection-id" = Some (HString (generateId (constructed s))) →
  safeJSONParse (rawBody msg) = Returned payload →
  http_response (handleHTTPEstablishRequest req s) =
    Some {| statusCode := 200;
            responseBody := JSON_stringify [("connectionId", generateId (constructed s))] |} ∧
  (generateId (constructed s) ≠ "" →
     http_inbound
       (handleHTTPMessageRequest msg (http_server (handleHTTPEstablishRequest req s))) =
       [({| objectId := constructed s;
            id := generateId (constructed s);
            rawConnection := None;
            hostname := host;
            ip := addr;
            publicKey := Some {| key := pk; type := "ecdsa" |} |}, payload)]) ∧
  (generateId (constructed s) = "" →
     handleHTTPMessageRequest msg (http_server (handleHTTPEstablishRequest req s)) =
       respond 400 "Missing connectionId" (http_server (handleHTTPEstablishRequest req s))).
Proof.
  intros Hvalid Hfresh Hk Hparse.
  rewrite (establish_validated _ _ _ _ _ Hvalid).
  rewrite handleNewConnection_fresh by done. simpl. split; [done|]. split.
  - intros Hne.
    erewrite message_found; [|exact Hk|exact Hne|simpl; apply lookup_insert_eq].
    unfold message_try. rewrite Hparse.
    destruct (handleIncomingHTTPRequest _ _ _). by rewrite message_finish_inbound.
  - intros Hempty. unfold handleHTTPMessageRequest. rewrite Hk, Hempty. done.
Qed.

End Invariants.

(** ** The table over time, on the concrete server *)

Lemma example_inbound_keeps_consistent :
  inbound_keeps_consistent (imports := Example.imports).
Proof. intros c payload s Hs. unfold handleIncomingHTTPRequest. simpl.
  unfold Example.inbound. by repeat case_match. Qed.

Lemma fresh_consistent : consistent (imports := Example.imports) Example.fresh.
Proof. exact (consistent_new (imports := Example.imports) false). Qed.

Lemma established_consistent : consistent (imports := Example.imports) Example.established.
Proof. exact (consistent_establish (imports := Example.imports) _ _ fresh_consistent). Qed.

Lemma busy_consistent : consistent (imports := Example.imports) Edge.busy.
Proof.
  apply (run_consistent (imports := Example.imports));
    [exact example_inbound_keeps_consistent | exact (consistent_new false)].
Qed.

Lemma busy_first : connections Edge.busy !! "q7Zp0aLmX2cVb9NeR4tY" = Some Example.connection.
Proof. vm_compute. reflexivity. Qed.

Lemma reachable_server_is_consistent_witness :
  inbound_keeps_consistent (imports := Example.imports) ∧
  consistent (imports := Example.imports)
    (run (imports := Example.imports)
       [HttpEstablish Example.establish; SocketConnection Example.socket;
        Disconnected Example.connection; HttpEstablish Example.establish]
       (new_MoopsyServer true)).
Proof.
  split; [exact example_inbound_keeps_consistent|].
  exact (reachable_server_is_consistent (imports := Example.imports) true _
           example_inbound_keeps_consistent).
Defined.

Lemma disconnect_is_one_removal_witness :
  consistent (imports := Example.imports) Edge.busy ∧
  connections Edge.busy !! "q7Zp0aLmX2cVb9NeR4tY" = Some Example.connection ∧
  disconnect Example.connection Edge.busy =
    run_hook (DeleteConnection "q7Zp0aLmX2cVb9NeR4tY") Edge.busy.
Proof.
  split; [exact busy_consistent|]. split; [exact busy_first|].
  exact (disconnect_is_one_removal (imports := Example.imports) _ _ _
           busy_consistent busy_first).
Defined.

Lemma connect_then_disconnect_restores_table_witness :
  consistent (imports := Example.imports) Example.fresh ∧
  handleNewConnection (imports := Example.imports) None "example.com" "10.0.0.1"
    (Some {| key := "pk_abc"; type := "ecdsa" |}) Example.fresh =
    (Returned Example.connection, Example.established) ∧
  connections (disconnect Example.connection Example.established) =
    connections Example.fresh.
Proof.
  split; [exact fresh_consistent|]. split; [exact handleNewConnection_returns_connection|].
  exact (connect_then_disconnect_restores_table (imports := Example.imports) _ _ _ _ _ _ _
           fresh_consistent handleNewConnection_returns_connection).
Defined.

Lemma establishment_keeps_existing_entries_witness :
  connections Example.established !! "q7Zp0aLmX2cVb9NeR4tY" = Some Example.connection ∧
  connections
    (socket_server (handleNewSocketIOConnection (imports := Example.imports)
                      Example.socket Example.established))
    !! "q7Zp0aLmX2cVb9NeR4tY" = Some Example.connection.
Proof.
  split; [exact established_has_connection|].
  destruct (establishment_keeps_existing_entries (imports := Example.imports) _ _ _
              established_has_connection) as (_ & _ & Hsocket).
  exact (Hsocket Example.socket).
Defined.

Lemma establish_answers_200 :
  http_response
    (handleHTTPEstablishRequest (imports := Example.imports) Example.establish Example.fresh) =
    Some {| statusCode := 200;
            responseBody := JSON_stringify [("connectionId", "q7Zp0aLmX2cVb9NeR4tY")] |}.
Proof. vm_compute. reflexivity. Qed.

Lemma establish_answer_and_table_witness :
  http_response
    (handleHTTPEstablishRequest (imports := Example.imports) Example.establish Example.fresh) =
    Some {| statusCode := 200;
            responseBody := JSON_stringify [("connectionId", "q7Zp0aLmX2cVb9NeR4tY")] |} ∧
  ∃ c, connections Example.fresh !! id c = None ∧
       connections Example.established = <[id c := c]> (connections Example.fresh).
Proof.
  split; [exact establish_answers_200|].
  destruct (proj1 (establish_answer_and_table (imports := Example.imports)
                     Example.establish Example.fresh) _ establish_answers_200)
    as (c & Hnone & Htable & _).
  exists c. split; [exact Hnone | exact Htable].
Defined.

Lemma established_has_generated_id :
  JS.has (generateId (Imports := Example.imports) (constructed Example.established))
    (connections Example.established) = true.
Proof. vm_compute. reflexivity. Qed.

Lemma establish_is_unanswered_iff_witness :
  (∃ pk h i, passes_validation Example.establish pk h i ∧
             JS.has (generateId (Imports := Example.imports) (constructed Example.established))
               (connections Example.established) = true) ∧
  http_response
    (handleHTTPEstablishRequest (imports := Example.imports)
       Example.establish Example.established) = None.
Proof.
  assert (Hblocked :
    ∃ pk h i, passes_validation Example.establish pk h i ∧
              JS.has (generateId (Imports := Example.imports) (constructed Example.established))
                (connections Example.established) = true).
  { exists "pk_abc", "example.com", "10.0.0.1".
    split; [exact establish_passes_validation | exact established_has_generated_id]. }
  split; [exact Hblocked|].
  exact (proj2 (proj1 (establish_is_unanswered_iff (imports := Example.imports)
                         Example.establish Example.established)) Hblocked).
Defined.

Lemma socket_with_hostname_is_registered_witness :
  handshake_headers_host Edge.socket_empty_host = Some "" ∧
  JS.has (generateId (Imports := Example.imports) (constructed Example.fresh))
    (connections Example.fresh) = false ∧
  socket_events
    (handleNewSocketIOConnection (imports := Example.imports)
       Edge.socket_empty_host Example.fresh) = [] ∧
  socket_completion
    (handleNewSocketIOConnection (imports := Example.imports)
       Edge.socket_empty_host Example.fresh) = Returned tt.
Proof.
  assert (Hfresh : JS.has (generateId (Imports := Example.imports) (constructed Example.fresh))
                     (connections Example.fresh) = false).
  { vm_compute. reflexivity. }
  split; [reflexivity|]. split; [exact Hfresh|].
  destruct (socket_with_hostname_is_registered (imports := Example.imports)
              Edge.socket_empty_host "" Example.fresh eq_refl Hfresh)
    as (Hevents & Hdone & _).
  split; [exact Hevents | exact Hdone].
Defined.

Lemma empty_forwarded_for_is_rejected_witness :
  (headers Edge.establish_empty_forwarded !! "x-forwarded-for" = Some (HString "") ∨
   headers Edge.establish_empty_forwarded !! "x-forwarded-for" = Some (HArray [])) ∧
  connection_remoteAddress Edge.establish_empty_forwarded = Some "192.168.0.7" ∧
  http_server
    (handleHTTPEstablishRequest (imports := Example.imports)
       Edge.establish_empty_forwarded Example.fresh) = Example.fresh.
Proof.
  assert (Hempty :
    headers Edge.establish_empty_forwarded !! "x-forwarded-for" = Some (HString "") ∨
    headers Edge.establish_empty_forwarded !! "x-forwarded-for" = Some (HArray [])).
  { left. vm_compute. reflexivity. }
  split; [exact Hempty|]. split; [reflexivity|].
  exact (proj2 (empty_forwarded_for_is_rejected (imports := Example.imports)
                  Edge.establish_empty_forwarded Example.fresh Hempty)).
Defined.

Lemma message_header (k b : string) :
  headers (Example.message k b) !! "x-seamless-connection-id" = Some (HString k).
Proof. unfold Example.message. simpl. apply lookup_singleton_eq. Qed.

Lemma bare_message_header (k b : string) :
  headers (Edge.bare_message k b) !! "x-seamless-connection-id" = Some (HString k).
Proof. unfold Edge.bare_message. simpl. apply lookup_singleton_eq. Qed.

Lemma generated_id_not_empty : "q7Zp0aLmX2cVb9NeR4tY" ≠ "".
Proof. discriminate. Qed.

Lemma message_is_delivered_witness :
  headers (Example.message "q7Zp0aLmX2cVb9NeR4tY" "ping") !! "x-seamless-connection-id" =
    Some (HString "q7Zp0aLmX2cVb9NeR4tY") ∧
  connections Example.established !! "q7Zp0aLmX2cVb9NeR4tY" = Some Example.connection ∧
  handleHTTPMessageRequest (imports := Example.imports)
    (Example.message "q7Zp0aLmX2cVb9NeR4tY" "ping") Example.established =
    {| http_server := Example.established;
       http_response := Some {| statusCode := 200; responseBody := "ping" |};
       http_inbound := [(Example.connection, "ping")];
       http_completion := Returned tt |}.
Proof.
  split; [apply message_header|]. split; [exact established_has_connection|].
  exact (message_is_delivered (imports := Example.imports)
           (Example.message "q7Zp0aLmX2cVb9NeR4tY" "ping") Example.established
           Example.established "q7Zp0aLmX2cVb9NeR4tY" Example.connection "ping" "ping" "ping"
           (message_header _ _) generated_id_not_empty established_has_connection
           eq_refl eq_refl eq_refl).
Defined.




Lemma message_for_inherited_name_witness :
  consistent (imports := Example.imports) Edge.busy ∧
  inherited "hasOwnProperty" = true ∧
  handleHTTPMessageRequest (imports := Example.imports)
    (Example.message "hasOwnProperty" "ping") Edge.busy =
    {| http_server := Edge.busy;
       http_response := Some {| statusCode := 500; responseBody := "Internal Server Error" |};
       http_inbound := [];
       http_completion := Returned tt |}.
Proof.
  split; [exact busy_consistent|]. split; [reflexivity|].
  exact (message_for_inherited_name (imports := Example.imports)
           (Example.message "hasOwnProperty" "ping") Edge.busy "hasOwnProperty" "ping"
           busy_consistent eq_refl (message_header _ _) eq_refl).
Defined.

Lemma message_reads_only_id_and_body_witness :
  headers (Example.message "q7Zp0aLmX2cVb9NeR4tY" "ping") !! "x-seamless-connection-id" =
    headers (Edge.bare_message "q7Zp0aLmX2cVb9NeR4tY" "ping") !! "x-seamless-connection-id" ∧
  headers_host (Edge.bare_message "q7Zp0aLmX2cVb9NeR4tY" "ping") = None ∧
  handleHTTPMessageRequest (imports := Example.imports)
    (Example.message "q7Zp0aLmX2cVb9NeR4tY" "ping") Example.established =
  handleHTTPMessageRequest (imports := Example.imports)
    (Edge.bare_message "q7Zp0aLmX2cVb9NeR4tY" "ping") Example.established.
Proof.
  assert (Hsame :
    headers (Example.message "q7Zp0aLmX2cVb9NeR4tY" "ping") !! "x-seamless-connection-id" =
    headers (Edge.bare_message "q7Zp0aLmX2cVb9NeR4tY" "ping") !! "x-seamless-connection-id").
  { by rewrite message_header, bare_message_header. }
  split; [exact Hsame|]. split; [reflexivity|].
  exact (message_reads_only_id_and_body (imports := Example.imports) _ _
           Example.established Hsame eq_refl).
Defined.

Lemma no_id_reaches_no_connection :
  http_inbound
    (handleHTTPMessageRequest (imports := Example.imports)
       Example.message_no_id Example.established) = [].
Proof. vm_compute. reflexivity. Qed.

Lemma handlers_never_log_witness :
  http_inbound
    (handleHTTPMessageRequest (imports := Example.imports)
       Example.message_no_id Example.established) = [] ∧
  http_server
    (handleHTTPMessageRequest (imports := Example.imports)
       Example.message_no_id Example.established) = Example.established ∧
  console
    (http_server (handleHTTPEstablishRequest (imports := Example.imports)
                    Example.establish Example.established)) =
    console Example.established.
Proof.
  split; [exact no_id_reaches_no_connection|].
  destruct (handlers_never_log (imports := Example.imports) Example.established)
    as (Hestablish & _ & _ & Hmessage).
  split; [exact (Hmessage _ no_id_reaches_no_connection)|].
  exact (proj1 (Hestablish Example.establish)).
Defined.

Lemma message_after_disconnect_is_rejected_witness :
  consistent (imports := Example.imports) Example.established ∧
  connections Example.established !! "q7Zp0aLmX2cVb9NeR4tY" = Some Example.connection ∧
  http_response
    (handleHTTPMessageRequest (imports := Example.imports)
       (Example.message "q7Zp0aLmX2cVb9NeR4tY" "ping")
       (disconnect Example.connection Example.established)) =
    Some {| statusCode := 404; responseBody := "Connection not found" |}.
Proof.
  split; [exact established_consistent|]. split; [exact established_has_connection|].
  exact (f_equal http_response
           (proj1 (message_after_disconnect_is_rejected (imports := Example.imports)
                     (Example.message "q7Zp0aLmX2cVb9NeR4tY" "ping") Example.established
                     "q7Zp0aLmX2cVb9NeR4tY" Example.connection
                     established_consistent established_has_connection
                     (message_header _ _))
                  generated_id_not_empty)).
Defined.

Lemma established_connection_receives_messages_witness :
  passes_validation Example.establish "pk_abc" "example.com" "10.0.0.1" ∧
  JS.has (generateId (Imports := Example.imports) (constructed Example.fresh))
    (connections Example.fresh) = false ∧
  http_inbound
    (handleHTTPMessageRequest (imports := Example.imports)
       (Example.message "q7Zp0aLmX2cVb9NeR4tY" "ping")
       (http_server (handleHTTPEstablishRequest (imports := Example.imports)
                       Example.establish Example.fresh))) =
    [(Example.connection, "ping")].
Proof.
  assert (Hfresh : JS.has (generateId (Imports := Example.imports) (constructed Example.fresh))
                     (connections Example.fresh) = false).
  { vm_compute. reflexivity. }
  split; [exact establish_passes_validation|]. split; [exact Hfresh|].
  destruct (established_connection_receives_messages (imports := Example.imports)
              Example.establish (Example.message "q7Zp0aLmX2cVb9NeR4tY" "ping")
              "pk_abc" "example.com" "10.0.0.1" Example.fresh "ping"
              establish_passes_validation Hfresh (message_header _ _) eq_refl)
    as (_ & Hreaches & _).
  exact (Hreaches generated_id_not_empty).
Defined.
